(** * AsyncArray: a dual-residency temporary buffer

    Shallow embedding of [Src/Base/AMReX_GpuAsyncArray.H] (class
    [amrex::Gpu::AsyncArray<T>]).  The class keeps two raw pointers,
    [d_data] (a block of [The_Arena()]) and [h_data] (a block of
    [The_Pinned_Arena()]); everything else it does goes through the
    arenas, the GPU stream and the launch-region flag, which are
    threaded here as an explicit [World]. *)

From Stdlib Require Import NArith Lia.
From stdpp Require Import base numbers list gmap.

Local Open Scope N_scope.

(** ** Build configuration *)

(** The preprocessor symbols the header branches on.  [AMREX_USE_GPU]
    is defined exactly when one of the accelerator back ends is. *)
Inductive Backend :=
| NoGpu          (* no AMREX_USE_GPU *)
| Cuda           (* AMREX_USE_CUDA *)
| Hip            (* AMREX_USE_HIP *)
| SyclHostTask   (* AMREX_USE_SYCL with AMREX_USE_CODEPLAY_HOST_TASK *)
| Sycl.          (* AMREX_USE_SYCL without host tasks *)

(** A build fixes the back end and the element type [T]; of [T] only
    [sizeof(T)] matters, its values being raw bytes. *)
Record Config := { backend : Backend; sizeofT : positive }.

Definition use_gpu (cfg : Config) : bool :=
  match backend cfg with NoGpu => false | _ => true end.

(** ** Machine data *)

Abbreviation byte := Byte.byte.

Abbreviation nullptr := 0%N (only parsing).

Definition is_null (p : N) : bool := p =? 0.

(** [std::size_t] arithmetic: [n*sizeof(T)] wraps at 64 bits. *)
Definition size_mul (n s : N) : N := (n * s) mod 2 ^ 64.

Definition nbytes (cfg : Config) (n : N) : N := size_mul n (Npos (sizeofT cfg)).

(** [memcpy(dst, src, bytes)] on the byte images of two objects. *)
Definition memcpy_bytes (dst src : list byte) (bytes : N) : list byte :=
  take (N.to_nat bytes) src ++ drop (N.to_nat bytes) dst.

(** ** The world around a buffer *)

Inductive Arena := The_Pinned_Arena | The_Arena.

(** The record [clear] mallocs for the stream callback: [p[0]] and [p[1]]. *)
Record DeleteRecord := { rec_d : N; rec_h : N }.

(** Units of work on the GPU stream. *)
Inductive StreamOp :=
| OpHtoD (dst src : N) (bytes : N)      (* htod_memcpy_async *)
| OpKernel (dst : N) (data : list byte) (* device work launched by the caller *)
| OpCallback (p : DeleteRecord)         (* amrex_asyncarray_delete(p) *)
| OpHostTask (pd ph : N).               (* the codeplay_host_task closure *)

(** Calls on the arenas and blocking waits on the stream, in the order
    they happen, whoever makes them. *)
Inductive Event :=
| EvAlloc (ar : Arena) (bytes : N) (p : N)
| EvFree (ar : Arena) (p : N)
| EvStreamSync.

Record World := {
  launch_region : bool;              (* what Gpu::inLaunchRegion() answers *)
  pinned : gmap N (list byte);       (* live blocks of The_Pinned_Arena() *)
  device : gmap N (list byte);       (* live blocks of The_Arena() *)
  stream : list StreamOp;            (* enqueued, not yet completed, oldest first *)
  log : list Event                   (* oldest first *)
}.

Definition set_launch_region (b : bool) (w : World) : World :=
  {| launch_region := b; pinned := pinned w; device := device w;
     stream := stream w; log := log w |}.

Definition set_stream (s : list StreamOp) (w : World) : World :=
  {| launch_region := launch_region w; pinned := pinned w; device := device w;
     stream := s; log := log w |}.

Definition record (ev : Event) (w : World) : World :=
  {| launch_region := launch_region w; pinned := pinned w; device := device w;
     stream := stream w; log := log w ++ [ev] |}.

Definition arena_mem (ar : Arena) (w : World) : gmap N (list byte) :=
  match ar with The_Pinned_Arena => pinned w | The_Arena => device w end.

Definition set_arena_mem (ar : Arena) (m : gmap N (list byte)) (w : World) : World :=
  match ar with
  | The_Pinned_Arena =>
      {| launch_region := launch_region w; pinned := m; device := device w;
         stream := stream w; log := log w |}
  | The_Arena =>
      {| launch_region := launch_region w; pinned := pinned w; device := m;
         stream := stream w; log := log w |}
  end.

Definition inLaunchRegion (w : World) : bool := launch_region w.

(** ** Collaborators *)

(** Modelled from the spec: the address an arena hands out.  The arena
    classes are not part of the header; the spec gives them as
    [allocate(byteSize) -> rawPointer].  The model returns an address
    above every live block of that arena, hence non-null and not live. *)
Definition arena_pick (m : gmap N (list byte)) : N :=
  N.succ (map_fold (λ k _ r, N.max k r) 0 m).

(** The bytes of a block just allocated: [bytes] bytes of no particular
    value (zeros here). *)
Definition fresh_block (bytes : N) : list byte :=
  replicate (N.to_nat bytes) Byte.x00.

(** Modelled from the spec: [Arena::alloc], [allocate(byteSize) ->
    rawPointer]; failure aborts the process, so a returning call always
    yields a block. *)
Definition arena_alloc (ar : Arena) (bytes : N) (w : World) : N * World :=
  let p := arena_pick (arena_mem ar w) in
  (p, record (EvAlloc ar bytes p)
        (set_arena_mem ar (<[p := fresh_block bytes]> (arena_mem ar w)) w)).

(** Modelled from the spec: [Arena::free], [free(rawPointer) -> void].
    The block at [p] stops being live; a pointer that is not live (null
    included) leaves the arena as it is. *)
Definition arena_free (ar : Arena) (p : N) (w : World) : World :=
  record (EvFree ar p) (set_arena_mem ar (delete p (arena_mem ar w)) w).

(** [std::memcpy(h_data, h_p, bytes)] into a pinned block. *)
Definition memcpy_to_pinned (h : N) (src : list byte) (bytes : N) (w : World) : World :=
  set_arena_mem The_Pinned_Arena
    (alter (λ blk, memcpy_bytes blk src bytes) h (pinned w)) w.

Definition enqueue (op : StreamOp) (w : World) : World :=
  set_stream (stream w ++ [op]) w.

(** Modelled from the spec: [Gpu::htod_memcpy_async],
    [copyHostToDeviceAsync(dst, src, bytes, stream)]: the copy is put on
    the current stream and the call returns. *)
Definition htod_memcpy_async (d h : N) (bytes : N) (w : World) : World :=
  enqueue (OpHtoD d h bytes) w.

(** Modelled from the spec: [amrex_asyncarray_delete], only declared in
    the header; it frees the device allocation and the host allocation
    (if present) back to their arenas. *)
Definition amrex_asyncarray_delete (p : DeleteRecord) (w : World) : World :=
  let w1 := arena_free The_Arena (rec_d p) w in
  if is_null (rec_h p) then w1 else arena_free The_Pinned_Arena (rec_h p) w1.

(** Modelled from the spec: what a unit of stream work does when the
    device runtime runs it.  A copy moves the bytes the pinned block
    holds at that moment; a kernel stands for any device work of the
    caller that writes a device block.  The host task is the closure
    written in [clear]: [The_Arena()->free(pd)], then
    [The_Pinned_Arena()->free(ph)]. *)
Definition exec_op (op : StreamOp) (w : World) : World :=
  match op with
  | OpHtoD d h bytes =>
      match pinned w !! h with
      | Some src =>
          set_arena_mem The_Arena
            (alter (λ blk, memcpy_bytes blk src bytes) d (device w)) w
      | None => w
      end
  | OpKernel d data =>
      set_arena_mem The_Arena
        (alter (λ blk, memcpy_bytes blk data (N.of_nat (length data))) d (device w)) w
  | OpCallback p => amrex_asyncarray_delete p w
  | OpHostTask pd ph =>
      arena_free The_Pinned_Arena ph (arena_free The_Arena pd w)
  end.

Definition run_ops (ops : list StreamOp) (w : World) : World :=
  foldl (λ w op, exec_op op w) w ops.

(** Modelled from the spec: the device runtime completes the oldest
    unit of the stream; units of one stream run in enqueue order. *)
Definition stream_step (w : World) : World :=
  match stream w with
  | [] => w
  | op :: rest => exec_op op (set_stream rest w)
  end.

Fixpoint run_stream (k : nat) (w : World) : World :=
  match k with
  | O => w
  | S k' => run_stream k' (stream_step w)
  end.

(** Modelled from the spec: [Gpu::streamSynchronize], block until all
    enqueued work on the stream completes. *)
Definition streamSynchronize (w : World) : World :=
  record EvStreamSync (run_ops (stream w) (set_stream [] w)).

(** Modelled from the spec: [Gpu::dtoh_memcpy],
    [copyDeviceToHost(dst, src, bytes, stream)], synchronous for the
    caller: it waits for the work enqueued before it, then the
    destination holds the device bytes. *)
Definition dtoh_memcpy (h_p : list byte) (d : N) (bytes : N) (w : World)
  : World * list byte :=
  let w' := streamSynchronize w in
  (w', match device w' !! d with
       | Some blk => memcpy_bytes h_p blk bytes
       | None => h_p
       end).

(** ** The class *)

Record AsyncArray := { d_data : N; h_data : N }.

(** The member initialisers: [d_data = nullptr], [h_data = nullptr]. *)
Definition fresh_array : AsyncArray := {| d_data := nullptr; h_data := nullptr |}.

(** [AsyncArray (T const* h_p, const std::size_t n)]; [h_p] is given by
    the bytes it points to. *)
Definition AsyncArray_from_host (cfg : Config) (h_p : list byte) (n : N) (w : World)
  : World * AsyncArray :=
  if n =? 0 then (w, fresh_array)
  else
    let '(h, w1) := arena_alloc The_Pinned_Arena (nbytes cfg n) w in
    let w2 := memcpy_to_pinned h h_p (nbytes cfg n) w1 in
    if use_gpu cfg && inLaunchRegion w2 then
      let '(d, w3) := arena_alloc The_Arena (nbytes cfg n) w2 in
      (htod_memcpy_async d h (nbytes cfg n) w3, {| d_data := d; h_data := h |})
    else (w2, {| d_data := nullptr; h_data := h |}).

(** [explicit AsyncArray (const std::size_t n)]. *)
Definition AsyncArray_uninit (cfg : Config) (n : N) (w : World) : World * AsyncArray :=
  if n =? 0 then (w, fresh_array)
  else if use_gpu cfg && inLaunchRegion w then
    let '(d, w1) := arena_alloc The_Arena (nbytes cfg n) w in
    (w1, {| d_data := d; h_data := nullptr |})
  else
    let '(h, w1) := arena_alloc The_Pinned_Arena (nbytes cfg n) w in
    (w1, {| d_data := nullptr; h_data := h |}).

(** [data ()]. *)
Definition data (a : AsyncArray) : N :=
  if negb (is_null (d_data a)) then d_data a else h_data a.

(** [clear ()]; the destructor is [clear ()] too. *)
Definition clear (cfg : Config) (a : AsyncArray) (w : World) : World * AsyncArray :=
  let w' :=
    if use_gpu cfg && inLaunchRegion w then
      if negb (is_null (d_data a)) then
        match backend cfg with
        | Cuda | Hip =>
            enqueue (OpCallback {| rec_d := d_data a; rec_h := h_data a |}) w
        | SyclHostTask => enqueue (OpHostTask (d_data a) (h_data a)) w
        | Sycl =>
            arena_free The_Pinned_Arena (h_data a)
              (arena_free The_Arena (d_data a) (streamSynchronize w))
        | NoGpu => w
        end
      else w
    else arena_free The_Pinned_Arena (h_data a) w
  in
  (w', {| d_data := nullptr; h_data := nullptr |}).

(** [copyToHost (T* h_p, std::size_t n)]; the destination is given by
    its bytes before the call and returned as its bytes after it. *)
Definition copyToHost (cfg : Config) (a : AsyncArray) (h_p : list byte) (n : N) (w : World)
  : World * list byte :=
  if n =? 0 then (w, h_p)
  else if use_gpu cfg && negb (is_null (d_data a)) then
    dtoh_memcpy h_p (d_data a) (nbytes cfg n) w
  else if negb (is_null (h_data a)) then
    (w, match pinned w !! h_data a with
        | Some blk => memcpy_bytes h_p blk (nbytes cfg n)
        | None => h_p
        end)
  else (w, h_p).

(** ** Specification vocabulary *)

(** "Asynchronous execution is active": the test both constructors and
    [clear] make, [#ifdef AMREX_USE_GPU] around [Gpu::inLaunchRegion()]. *)
Definition async_active (cfg : Config) (w : World) : bool :=
  use_gpu cfg && inLaunchRegion w.

Definition live (ar : Arena) (p : N) (w : World) : Prop :=
  is_Some (arena_mem ar w !! p).

(** No arena has a block at the null address (no [alloc] returns it). *)
Definition null_not_live (w : World) : Prop :=
  pinned w !! nullptr = None ∧ device w !! nullptr = None.

(** The unit [op] releases the block at [p] of arena [ar] when it runs. *)
Definition op_frees (ar : Arena) (p : N) (op : StreamOp) : Prop :=
  match op, ar with
  | OpCallback r, The_Arena => rec_d r = p
  | OpCallback r, The_Pinned_Arena => rec_h r = p
  | OpHostTask pd _, The_Arena => pd = p
  | OpHostTask _ ph, The_Pinned_Arena => ph = p
  | _, _ => False
  end.

(** No pending unit releases the block at [p]. *)
Definition not_pending_free (ar : Arena) (p : N) (w : World) : Prop :=
  Forall (λ op, ¬ op_frees ar p op) (stream w).

(** Every release pending on the stream is of a block that is still
    live (or of a null pointer): nothing is queued to be freed twice. *)
Definition pending_frees_live (w : World) : Prop :=
  ∀ ar p, p ≠ nullptr → ¬ live ar p w → not_pending_free ar p w.

(** The block at [p] is live and nothing on the stream will release it. *)
Definition held (ar : Arena) (p : N) (w : World) : Prop :=
  live ar p w ∧ not_pending_free ar p w.

(** Modelled from the spec: what the caller and the device runtime do
    to the world between two operations on a buffer. *)
Inductive Action :=
| SetLaunchRegion (b : bool)            (* Gpu::setLaunchRegion(b) *)
| Launch (dst : N) (data : list byte)   (* the caller enqueues device work *)
| Complete                              (* the runtime completes the oldest unit *)
| Synchronize.                          (* Gpu::streamSynchronize() *)

Definition act (x : Action) (w : World) : World :=
  match x with
  | SetLaunchRegion b => set_launch_region b w
  | Launch d dat => enqueue (OpKernel d dat) w
  | Complete => stream_step w
  | Synchronize => streamSynchronize w
  end.

Definition run_actions (xs : list Action) (w : World) : World :=
  foldl (λ w x, act x w) w xs.



(** How a buffer came to be, kept beside it: the class stores neither
    its element count nor the mode it was built in.  The element count
    is that of the allocations the buffer holds: the constructor's [n],
    and 0 once [clear()] has given them up, when the buffer is the empty
    buffer again. *)
Inductive Origin := FromHost | Uninit.

Record Ghost := {
  origin : Origin;        (* which constructor *)
  count : N;              (* elements held: the argument n, 0 once cleared *)
  born_async : bool;      (* asynchronous execution active at construction *)
  cleared : bool          (* clear() has been called *)
}.

Definition mark_cleared (g : Ghost) : Ghost :=
  {| origin := origin g; count := 0; born_async := born_async g;
     cleared := true |}.

(** Either constructor, by name. *)
Definition construct (cfg : Config) (o : Origin) (h_p : list byte) (n : N) (w : World)
  : World * AsyncArray :=
  match o with
  | FromHost => AsyncArray_from_host cfg h_p n w
  | Uninit => AsyncArray_uninit cfg n w
  end.

(** The block at [p] has leaked: it is a live block that nothing on the
    stream will release (and, after [clear], no pointer of the buffer
    refers to any more). *)
Definition leaked (ar : Arena) (p : N) (w : World) : Prop :=
  p ≠ nullptr ∧ held ar p w.

(** The states a buffer goes through: built by one of the constructors
    in some world, then cleared any number of times, each time in
    whatever world the caller is in by then.  ([data] and [copyToHost]
    are const; copies and moves are deleted.) *)
Inductive reachable (cfg : Config) : Ghost → AsyncArray → Prop :=
| reach_from_host h_p n w :
    reachable cfg
      {| origin := FromHost; count := n; born_async := async_active cfg w;
         cleared := false |}
      (AsyncArray_from_host cfg h_p n w).2
| reach_uninit n w :
    reachable cfg
      {| origin := Uninit; count := n; born_async := async_active cfg w;
         cleared := false |}
      (AsyncArray_uninit cfg n w).2
| reach_clear g a w :
    reachable cfg g a → reachable cfg (mark_cleared g) (clear cfg a w).2.

(** The allocation-state invariant in the spec's words: (i) both
    pointers null and [n == 0]; (ii) only the host pointer set,
    synchronous mode; (iii) only the device pointer set, asynchronous
    mode, uninitialised variant, or both set, asynchronous mode,
    from-host variant. *)
Definition allocation_state_invariant (g : Ghost) (a : AsyncArray) : Prop :=
  (d_data a = nullptr ∧ h_data a = nullptr ∧ count g = 0) ∨
  (d_data a = nullptr ∧ h_data a ≠ nullptr ∧ born_async g = false) ∨
  (d_data a ≠ nullptr ∧ h_data a = nullptr ∧
   born_async g = true ∧ origin g = Uninit) ∨
  (d_data a ≠ nullptr ∧ h_data a ≠ nullptr ∧
   born_async g = true ∧ origin g = FromHost).

(** ** Sample builds, worlds and sources *)

Definition cfg_cuda_int : Config := {| backend := Cuda; sizeofT := 4 |}.
Definition cfg_host_int : Config := {| backend := NoGpu; sizeofT := 4 |}.

Definition idle_world (launch : bool) : World :=
  {| launch_region := launch; pinned := ∅; device := ∅; stream := []; log := [] |}.

Definition src_1234 : list byte :=
  [Byte.x01; Byte.x00; Byte.x00; Byte.x00; Byte.x02; Byte.x00; Byte.x00; Byte.x00;
   Byte.x03; Byte.x00; Byte.x00; Byte.x00; Byte.x04; Byte.x00; Byte.x00; Byte.x00].

Definition src_5678 : list byte :=
  [Byte.x05; Byte.x00; Byte.x00; Byte.x00; Byte.x06; Byte.x00; Byte.x00; Byte.x00].

(** A world with device work and a deferred release already pending. *)
Definition busy_world : World :=
  {| launch_region := true;
     pinned := {[ 1 := [Byte.x2a] ]};
     device := {[ 1 := [Byte.x00] ]};
     stream := [OpKernel 1 [Byte.xff]; OpCallback {| rec_d := 1; rec_h := 1 |}];
     log := [] |}.

Definition built_busy : World * AsyncArray :=
  AsyncArray_from_host cfg_cuda_int src_1234 4 busy_world.

(** ** The destructor, and vocabulary for whole lifetimes *)

(** [~AsyncArray () { clear(); }]: what the world is after the object
    has gone. *)
Definition destructor (cfg : Config) (a : AsyncArray) (w : World) : World :=
  (clear cfg a w).1.

(** The arena calls a unit of stream work makes when it runs. *)
Definition op_events (op : StreamOp) : list Event :=
  match op with
  | OpCallback p =>
      EvFree The_Arena (rec_d p)
        :: (if is_null (rec_h p) then [] else [EvFree The_Pinned_Arena (rec_h p)])
  | OpHostTask pd ph => [EvFree The_Arena pd; EvFree The_Pinned_Arena ph]
  | _ => []
  end.

(** The unit [op] writes the device block at [d] when it runs. *)
Definition op_writes (d : N) (op : StreamOp) : Prop :=
  match op with
  | OpHtoD d' _ _ => d' = d
  | OpKernel d' _ => d' = d
  | _ => False
  end.

(** An event of the pinned host arena. *)
Definition pinned_event (ev : Event) : Prop :=
  match ev with
  | EvAlloc The_Pinned_Arena _ _ | EvFree The_Pinned_Arena _ => True
  | _ => False
  end.

(** The arena [data()] points into for a buffer built in world [w]. *)
Definition home_arena (cfg : Config) (w : World) : Arena :=
  if async_active cfg w then The_Arena else The_Pinned_Arena.

(** The stream as it is once everything on it has run. *)
Definition drained (w : World) : World := run_stream (length (stream w)) w.

#[global] Instance Arena_eq_dec : EqDecision Arena.
Proof. solve_decision. Defined.

#[global] Instance Event_eq_dec : EqDecision Event.
Proof. solve_decision. Defined.

(** How often the event [ev] occurs in a log. *)
Definition occurrences (ev : Event) (l : list Event) : nat :=
  length (filter (λ e, e = ev) l).

(** * Proof automation *)

Ltac solve_pending :=
  unfold not_pending_free; cbn;
  repeat first
    [ apply Forall_nil_2
    | apply Forall_cons_2; [cbn; first [tauto | lia | discriminate]|] ].


Ltac name_built_world w1 :=
  match goal with
  | |- context [({| launch_region := ?a; pinned := ?b; device := ?c;
                    stream := ?d; log := ?e |}, _)] =>
      set (w1 := {| launch_region := a; pinned := b; device := c;
                    stream := d; log := e |})
  end.

(** * Basic facts *)

Lemma arena_pick_bound (m : gmap N (list byte)) k :
  is_Some (m !! k) → k ≤ map_fold (λ k _ r, N.max k r) 0 m.
Proof.
  revert k.
  apply (map_fold_weak_ind
           (λ r (m : gmap N (list byte)), ∀ k, is_Some (m !! k) → k ≤ r)).
  - intros k [x Hx]. by rewrite lookup_empty in Hx.
  - intros i x m' r Hi IH k [y Hy].
    destruct (decide (i = k)) as [->|Hne]; [lia|].
    rewrite lookup_insert_ne in Hy by done.
    specialize (IH k (ex_intro _ y Hy)). lia.
Qed.

Lemma arena_pick_nonnull m : arena_pick m ≠ 0.
Proof. unfold arena_pick. lia. Qed.

Lemma arena_pick_fresh m : m !! arena_pick m = None.
Proof.
  destruct (m !! arena_pick m) eqn:E; [|done].
  pose proof (arena_pick_bound m (arena_pick m) (ex_intro _ _ E)) as Hb.
  unfold arena_pick in Hb. lia.
Qed.

Create HintDb arena.
#[local] Hint Resolve arena_pick_nonnull arena_pick_fresh : arena.

Lemma is_null_false p : p ≠ 0 → is_null p = false.
Proof. intros. unfold is_null. by apply N.eqb_neq. Qed.

Lemma memcpy_bytes_exact dst src bytes :
  length src = N.to_nat bytes → length dst = N.to_nat bytes →
  memcpy_bytes dst src bytes = src.
Proof.
  intros Hs Hd. unfold memcpy_bytes.
  rewrite take_ge by lia. rewrite drop_ge by lia. apply app_nil_r.
Qed.

Lemma length_fresh_block bytes : length (fresh_block bytes) = N.to_nat bytes.
Proof. apply length_replicate. Qed.

(** * Running the stream *)

Lemma exec_op_set_stream op s w :
  exec_op op (set_stream s w) = set_stream s (exec_op op w).
Proof.
  destruct op as [d h b|d dat|r|pd ph]; cbn; try done.
  - by destruct (pinned w !! h).
  - unfold amrex_asyncarray_delete. by destruct (is_null (rec_h r)).
Qed.

Lemma exec_op_stream op w : stream (exec_op op w) = stream w.
Proof.
  destruct op as [d h b|d dat|r|pd ph]; cbn; try done.
  - by destruct (pinned w !! h).
  - unfold amrex_asyncarray_delete. by destruct (is_null (rec_h r)).
Qed.

Lemma exec_op_launch_region op w :
  launch_region (exec_op op w) = launch_region w.
Proof.
  destruct op as [d h b|d dat|r|pd ph]; cbn; try done.
  - by destruct (pinned w !! h).
  - unfold amrex_asyncarray_delete. by destruct (is_null (rec_h r)).
Qed.

Lemma set_stream_id w : set_stream (stream w) w = w.
Proof. by destruct w. Qed.

Lemma run_ops_app ops1 ops2 w :
  run_ops (ops1 ++ ops2) w = run_ops ops2 (run_ops ops1 w).
Proof. apply foldl_app. Qed.

Lemma run_ops_stream ops w : stream (run_ops ops w) = stream w.
Proof.
  revert w. induction ops as [|op ops IH]; intros w; [done|].
  cbn. fold (run_ops ops (exec_op op w)). by rewrite IH, exec_op_stream.
Qed.

Lemma run_ops_set_stream ops s w :
  run_ops ops (set_stream s w) = set_stream s (run_ops ops w).
Proof.
  revert w. induction ops as [|op ops IH]; intros w; [done|].
  cbn. fold (run_ops ops (exec_op op (set_stream s w))).
  fold (run_ops ops (exec_op op w)). by rewrite exec_op_set_stream, IH.
Qed.

(** [k] steps of the runtime complete the [k] oldest units, in order. *)
Lemma run_stream_take k w :
  run_stream k w = set_stream (drop k (stream w)) (run_ops (take k (stream w)) w).
Proof.
  revert w. induction k as [|k IH]; intros w.
  - cbn. by rewrite drop_0, set_stream_id.
  - cbn [run_stream]. unfold stream_step.
    destruct (stream w) as [|op rest] eqn:Hs.
    + rewrite IH, Hs. by rewrite take_nil, drop_nil.
    + rewrite IH. rewrite exec_op_stream. cbn [stream set_stream take drop].
      cbn. fold (run_ops (take k rest) (exec_op op w)).
      fold (run_ops (take k rest) (exec_op op (set_stream rest w))).
      by rewrite exec_op_set_stream, run_ops_set_stream.
Qed.

Lemma run_stream_stream k w : stream (run_stream k w) = drop k (stream w).
Proof. by rewrite run_stream_take. Qed.

(** Draining the stream is running it for as many steps as it has units. *)
Lemma run_stream_all w :
  run_stream (length (stream w)) w = run_ops (stream w) (set_stream [] w).
Proof.
  rewrite run_stream_take, firstn_all, drop_all. by rewrite run_ops_set_stream.
Qed.

(** ** What running a unit does to a block *)

Lemma exec_op_pinned_lookup h op w :
  ¬ op_frees The_Pinned_Arena h op → pinned (exec_op op w) !! h = pinned w !! h.
Proof.
  destruct op as [d h' b|d dat|r|pd ph]; cbn; intros Hf; try done.
  - by destruct (pinned w !! h').
  - unfold amrex_asyncarray_delete.
    destruct (is_null (rec_h r)); cbn; [done|]. by apply lookup_delete_ne.
  - by apply lookup_delete_ne.
Qed.

Lemma exec_op_device_live d op w :
  ¬ op_frees The_Arena d op →
  is_Some (device w !! d) → is_Some (device (exec_op op w) !! d).
Proof.
  destruct op as [d' h b|d' dat|r|pd ph]; cbn; intros Hf Hl.
  - destruct (pinned w !! h); cbn; [|done]. by apply lookup_alter_is_Some.
  - by apply lookup_alter_is_Some.
  - unfold amrex_asyncarray_delete.
    destruct (is_null (rec_h r)); cbn; by rewrite lookup_delete_ne.
  - by rewrite lookup_delete_ne.
Qed.

Lemma exec_op_live ar p op w :
  ¬ op_frees ar p op → live ar p w → live ar p (exec_op op w).
Proof.
  destruct ar; unfold live; cbn.
  - intros Hf. by rewrite exec_op_pinned_lookup.
  - apply exec_op_device_live.
Qed.

Lemma run_ops_pinned_lookup h ops w :
  Forall (λ op, ¬ op_frees The_Pinned_Arena h op) ops →
  pinned (run_ops ops w) !! h = pinned w !! h.
Proof.
  intros Hf. revert w. induction Hf as [|op ops Hop _ IH]; intros w; [done|].
  cbn. fold (run_ops ops (exec_op op w)). by rewrite IH, exec_op_pinned_lookup.
Qed.

Lemma run_ops_live ar p ops w :
  Forall (λ op, ¬ op_frees ar p op) ops →
  live ar p w → live ar p (run_ops ops w).
Proof.
  intros Hf. revert w. induction Hf as [|op ops Hop _ IH]; intros w Hl; [done|].
  cbn. fold (run_ops ops (exec_op op w)). by apply IH, exec_op_live.
Qed.

(** A block that was not live when a world with [pending_frees_live]
    was left is no target of the stream it left behind. *)
Lemma fresh_not_pending ar w :
  pending_frees_live w → not_pending_free ar (arena_pick (arena_mem ar w)) w.
Proof.
  intros Hw. apply Hw; [apply arena_pick_nonnull|].
  unfold live. rewrite arena_pick_fresh. by intros [? ?].
Qed.

(** ** The null address stays out of the arenas *)

Section null_address.
Implicit Types (w : World) (ar : Arena) (op : StreamOp) (x : Action).

Lemma null_not_live_alloc ar bytes w :
  null_not_live w → null_not_live (arena_alloc ar bytes w).2.
Proof.
  intros [Hp Hd].
  destruct ar; split; cbn; try done;
    rewrite lookup_insert_ne; auto with arena.
Qed.

Lemma null_not_live_free ar p w :
  null_not_live w → null_not_live (arena_free ar p w).
Proof.
  intros [Hp Hd].
  destruct ar; split; cbn; try done; apply lookup_delete_None; by right.
Qed.

Lemma null_not_live_exec_op op w :
  null_not_live w → null_not_live (exec_op op w).
Proof.
  intros Hw. destruct op as [d h b|d dat|r|pd ph]; cbn.
  - destruct Hw as [Hp Hd]. destruct (pinned w !! h); [|done].
    split; cbn; [done|]. by apply lookup_alter_None.
  - destruct Hw as [Hp Hd]. split; cbn; [done|].
    by apply lookup_alter_None.
  - unfold amrex_asyncarray_delete.
    destruct (is_null (rec_h r)); auto using null_not_live_free.
  - auto using null_not_live_free.
Qed.

Lemma null_not_live_run_ops ops w :
  null_not_live w → null_not_live (run_ops ops w).
Proof.
  revert w. induction ops as [|op ops IH]; intros w Hw; [done|].
  cbn. fold (run_ops ops (exec_op op w)). by apply IH, null_not_live_exec_op.
Qed.

Lemma null_not_live_act x w : null_not_live w → null_not_live (act x w).
Proof.
  intros Hw. destruct x as [b|d dat| |]; cbn; try done.
  - unfold stream_step. destruct (stream w) as [|op rest]; [done|].
    by apply null_not_live_exec_op.
  - unfold streamSynchronize.
    by pose proof (null_not_live_run_ops (stream w) (set_stream [] w) Hw).
Qed.

Lemma null_not_live_clear cfg a w :
  null_not_live w → null_not_live (clear cfg a w).1.
Proof.
  intros Hw. unfold clear. cbn [fst].
  destruct (use_gpu cfg && inLaunchRegion w); [|by apply null_not_live_free].
  destruct (negb (is_null (d_data a))); [|done].
  destruct (backend cfg); try done.
  do 2 apply null_not_live_free.
  by pose proof (null_not_live_run_ops (stream w) (set_stream [] w) Hw).
Qed.

Lemma null_not_live_construct cfg o h_p n w :
  null_not_live w → null_not_live (construct cfg o h_p n w).1.
Proof.
  intros Hw. destruct o; cbn [construct].
  - unfold AsyncArray_from_host. destruct (n =? 0); [done|].
    pose proof (null_not_live_alloc The_Pinned_Arena (nbytes cfg n) w Hw) as H1.
    destruct (arena_alloc The_Pinned_Arena (nbytes cfg n) w) as [h w1] eqn:E1.
    cbn [snd] in H1.
    assert (H2 : null_not_live (memcpy_to_pinned h h_p (nbytes cfg n) w1)).
    { destruct H1 as [Hp Hd]. split; cbn; [|done].
      by apply lookup_alter_None. }
    destruct (use_gpu cfg && inLaunchRegion _); [|done].
    pose proof (null_not_live_alloc The_Arena (nbytes cfg n) _ H2) as H3.
    destruct (arena_alloc The_Arena (nbytes cfg n) _) as [d w3]. by cbn in *.
  - unfold AsyncArray_uninit. destruct (n =? 0); [done|].
    destruct (use_gpu cfg && inLaunchRegion w).
    + pose proof (null_not_live_alloc The_Arena (nbytes cfg n) w Hw) as H1.
      by destruct (arena_alloc The_Arena (nbytes cfg n) w).
    + pose proof (null_not_live_alloc The_Pinned_Arena (nbytes cfg n) w Hw) as H1.
      by destruct (arena_alloc The_Pinned_Arena (nbytes cfg n) w).
Qed.
End null_address.

(** * The constructors *)

(** C5.  For [n > 0] the uninitialised constructor makes exactly one
    arena call: in asynchronous mode an allocation of [n*sizeof(T)]
    bytes from the device arena, otherwise an allocation of
    [n*sizeof(T)] bytes from the pinned host arena; the other arena is
    neither called nor changed, and nothing is put on the stream. *)
Theorem uninit_allocates_from_one_pool cfg n w :
  0 < n →
  let w' := (AsyncArray_uninit cfg n w).1 in
  let a := (AsyncArray_uninit cfg n w).2 in
  stream w' = stream w ∧
  if async_active cfg w then
    log w' = log w ++ [EvAlloc The_Arena (nbytes cfg n) (d_data a)] ∧
    d_data a ≠ nullptr ∧ h_data a = nullptr ∧
    device w !! d_data a = None ∧
    device w' = <[d_data a := fresh_block (nbytes cfg n)]> (device w) ∧
    pinned w' = pinned w
  else
    log w' = log w ++ [EvAlloc The_Pinned_Arena (nbytes cfg n) (h_data a)] ∧
    h_data a ≠ nullptr ∧ d_data a = nullptr ∧
    pinned w !! h_data a = None ∧
    pinned w' = <[h_data a := fresh_block (nbytes cfg n)]> (pinned w) ∧
    device w' = device w.
Proof.
  intros Hn. unfold AsyncArray_uninit, async_active.
  destruct (N.eqb_spec n 0) as [->|_]; [lia|].
  destruct (use_gpu cfg && inLaunchRegion w); simpl;
    (split; [done|]); repeat split;
    auto with arena.
Qed.

Lemma uninit_allocates_from_one_pool_witness :
  let w' := (AsyncArray_uninit cfg_host_int 100 (idle_world true)).1 in
  let a := (AsyncArray_uninit cfg_host_int 100 (idle_world true)).2 in
  log w' = [EvAlloc The_Pinned_Arena 400 (h_data a)] ∧ d_data a = nullptr ∧
  device w' = ∅.
Proof.
  pose proof (uninit_allocates_from_one_pool cfg_host_int 100 (idle_world true)
                ltac:(reflexivity)) as H.
  simpl in H. destruct H as (_ & Hlog & _ & Hd & _ & _ & Hdev).
  simpl. split_and!; [exact Hlog | exact Hd | exact Hdev].
Defined.

(** C6.  For [n > 0] the constructor from a host source always takes
    [n*sizeof(T)] bytes from the pinned host arena and has copied the
    source bytes into them when it returns.  In asynchronous mode it
    also takes [n*sizeof(T)] bytes from the device arena and leaves a
    host-to-device copy pending at the end of the stream, without
    waiting for anything; both pointers are then set.  Otherwise only
    the host pointer is set, and device arena and stream are as before. *)
Theorem from_host_allocates_and_copies cfg h_p n w :
  0 < n →
  let w' := (AsyncArray_from_host cfg h_p n w).1 in
  let a := (AsyncArray_from_host cfg h_p n w).2 in
  let bytes := nbytes cfg n in
  h_data a ≠ nullptr ∧
  pinned w !! h_data a = None ∧
  pinned w' = <[h_data a := memcpy_bytes (fresh_block bytes) h_p bytes]> (pinned w) ∧
  if async_active cfg w then
    log w' = log w ++ [EvAlloc The_Pinned_Arena bytes (h_data a);
                       EvAlloc The_Arena bytes (d_data a)] ∧
    d_data a ≠ nullptr ∧
    device w !! d_data a = None ∧
    device w' = <[d_data a := fresh_block bytes]> (device w) ∧
    stream w' = stream w ++ [OpHtoD (d_data a) (h_data a) bytes]
  else
    log w' = log w ++ [EvAlloc The_Pinned_Arena bytes (h_data a)] ∧
    d_data a = nullptr ∧
    device w' = device w ∧
    stream w' = stream w.
Proof.
  intros Hn. unfold AsyncArray_from_host, async_active.
  destruct (N.eqb_spec n 0) as [->|_]; [lia|].
  cbn -[nbytes]. unfold inLaunchRegion. cbn -[nbytes].
  destruct (use_gpu cfg && launch_region w); cbn -[nbytes];
    rewrite alter_insert_eq; split_and!;
    auto with arena.
  by rewrite <- app_assoc.
Qed.

Lemma from_host_allocates_and_copies_witness :
  0 < 4 ∧
  let w' := (AsyncArray_from_host cfg_cuda_int src_1234 4 (idle_world true)).1 in
  let a := (AsyncArray_from_host cfg_cuda_int src_1234 4 (idle_world true)).2 in
  pinned w' !! h_data a = Some src_1234 ∧
  stream w' = [OpHtoD (d_data a) (h_data a) 16].
Proof.
  split; [reflexivity|].
  pose proof (from_host_allocates_and_copies cfg_cuda_int src_1234 4 (idle_world true)
                ltac:(reflexivity)) as H.
  cbv zeta in H. destruct H as (_ & _ & Hp & _ & _ & _ & _ & Hs).
  cbv zeta. split; [|exact Hs].
  rewrite Hp. apply lookup_insert_eq.
Defined.

(** * Accessors on a buffer without allocations *)

(** C10.  On a buffer whose two pointers are null, [copyToHost] does
    nothing for any count [n], zero or not: the world is the one before
    the call (no stream wait, no arena call, no block read) and the
    destination keeps its bytes. *)
Theorem copyToHost_null_buffer_noop cfg h_p n w :
  copyToHost cfg {| d_data := nullptr; h_data := nullptr |} h_p n w = (w, h_p).
Proof.
  unfold copyToHost. destruct (n =? 0); [done|].
  cbn. by rewrite andb_false_r.
Qed.

(** * Reachable buffers *)

Lemma from_host_shape cfg h_p n w :
  let a := (AsyncArray_from_host cfg h_p n w).2 in
  if n =? 0 then a = fresh_array
  else h_data a ≠ nullptr ∧
       (if async_active cfg w then d_data a ≠ nullptr else d_data a = nullptr).
Proof.
  unfold AsyncArray_from_host, async_active, inLaunchRegion.
  destruct (n =? 0); [done|]. cbn -[nbytes].
  destruct (use_gpu cfg && launch_region w); cbn;
    auto with arena.
Qed.

Lemma uninit_shape cfg n w :
  let a := (AsyncArray_uninit cfg n w).2 in
  if n =? 0 then a = fresh_array
  else if async_active cfg w then d_data a ≠ nullptr ∧ h_data a = nullptr
       else h_data a ≠ nullptr ∧ d_data a = nullptr.
Proof.
  unfold AsyncArray_uninit, async_active.
  destruct (n =? 0); [done|].
  destruct (use_gpu cfg && inLaunchRegion w); cbn;
    auto with arena.
Qed.

Lemma async_needs_gpu cfg w : use_gpu cfg = false → async_active cfg w = false.
Proof. unfold async_active. by intros ->. Qed.

(** Without [AMREX_USE_GPU] no reachable buffer has a device pointer. *)
Lemma reachable_host_build cfg g a :
  reachable cfg g a → use_gpu cfg = false → d_data a = nullptr.
Proof.
  intros Hr Hg. destruct Hr as [h_p n w|n w|g a w _]; [| |done].
  - pose proof (from_host_shape cfg h_p n w) as H. cbv zeta in H.
    rewrite (async_needs_gpu _ _ Hg) in H.
    destruct (n =? 0); [by rewrite H|tauto].
  - pose proof (uninit_shape cfg n w) as H. cbv zeta in H.
    rewrite (async_needs_gpu _ _ Hg) in H.
    destruct (n =? 0); [by rewrite H|tauto].
Qed.

(** C7.  For every reachable buffer, [data()] is the device pointer
    when that is set and the host pointer otherwise (null when neither
    is set), and [copyToHost] of [n > 0] elements is a device-to-host
    copy out of the device block when the device pointer is set, and
    only otherwise a [memcpy] out of the pinned host block. *)
Theorem accessors_prefer_device cfg g a :
  reachable cfg g a →
  (d_data a ≠ nullptr →
     data a = d_data a ∧
     ∀ h_p n w, 0 < n →
       copyToHost cfg a h_p n w = dtoh_memcpy h_p (d_data a) (nbytes cfg n) w) ∧
  (d_data a = nullptr →
     data a = h_data a ∧
     ∀ h_p n w, 0 < n →
       copyToHost cfg a h_p n w =
         (w, if is_null (h_data a) then h_p
             else match pinned w !! h_data a with
                  | Some blk => memcpy_bytes h_p blk (nbytes cfg n)
                  | None => h_p
                  end)).
Proof.
  intros Hr. split.
  - intros Hd. unfold data. rewrite (is_null_false _ Hd). split; [done|].
    intros h_p n w Hn. unfold copyToHost.
    destruct (N.eqb_spec n 0); [lia|].
    rewrite (is_null_false _ Hd).
    destruct (use_gpu cfg) eqn:Hg; [done|].
    by pose proof (reachable_host_build _ _ _ Hr Hg).
  - intros Hd. unfold data. rewrite Hd. split; [done|].
    intros h_p n w Hn. unfold copyToHost.
    destruct (N.eqb_spec n 0); [lia|].
    rewrite Hd. cbn. rewrite andb_false_r.
    by destruct (is_null (h_data a)).
Qed.

Lemma accessors_prefer_device_witness :
  let a := (AsyncArray_from_host cfg_cuda_int src_1234 4 (idle_world true)).2 in
  d_data a ≠ nullptr ∧ data a = d_data a.
Proof.
  pose proof (accessors_prefer_device cfg_cuda_int _ _
                (reach_from_host cfg_cuda_int src_1234 4 (idle_world true))) as [H _].
  cbv zeta. split; [by vm_compute|].
  apply H. by vm_compute.
Defined.

(** C9.  Every reachable buffer state satisfies the allocation-state
    invariant: both pointers null and element count 0, or only the host
    pointer set (built in synchronous mode), or only the device pointer
    set (asynchronous mode, uninitialised variant), or both set
    (asynchronous mode, from-host variant).  In particular both
    pointers are null exactly when the element count is 0, so a state
    with both pointers null and [n > 0] never occurs; a cleared buffer
    is the empty buffer. *)
Theorem allocation_state_invariant_reachable cfg g a :
  reachable cfg g a →
  allocation_state_invariant g a ∧
  (d_data a = nullptr ∧ h_data a = nullptr ↔ count g = 0) ∧
  ¬ (d_data a = nullptr ∧ h_data a = nullptr ∧ 0 < count g) ∧
  (cleared g = true → a = fresh_array).
Proof.
  intros Hr.
  assert (H : allocation_state_invariant g a ∧
              (d_data a = nullptr ∧ h_data a = nullptr ↔ count g = 0) ∧
              (cleared g = true → a = fresh_array)).
  { destruct Hr as [h_p n w|n w|g a w _]; cbn.
    - pose proof (from_host_shape cfg h_p n w) as H. cbv zeta in H.
      unfold allocation_state_invariant. cbn.
      destruct (N.eqb_spec n 0) as [->|Hn]; [rewrite H; cbn; tauto|].
      destruct H as [Hh Hd]. destruct (async_active cfg w); split_and!; (done || tauto).
    - pose proof (uninit_shape cfg n w) as H. cbv zeta in H.
      unfold allocation_state_invariant. cbn.
      destruct (N.eqb_spec n 0) as [->|Hn]; [rewrite H; cbn; tauto|].
      destruct (async_active cfg w); split_and!; (done || tauto).
    - unfold allocation_state_invariant. cbn. split_and!; (done || tauto). }
  destruct H as (Hinv & Hnull & Hcl). split_and!; try done.
  intros (Hd & Hh & Hc). assert (count g = 0) by tauto. lia.
Qed.

Lemma allocation_state_invariant_reachable_witness :
  let w1 := (AsyncArray_uninit cfg_cuda_int 100 (idle_world true)).1 in
  let a := (AsyncArray_uninit cfg_cuda_int 100 (idle_world true)).2 in
  let a' := (clear cfg_cuda_int a w1).2 in
  (d_data a ≠ nullptr ∧ h_data a = nullptr) ∧
  (d_data a' = nullptr ∧ h_data a' = nullptr).
Proof.
  pose proof (allocation_state_invariant_reachable cfg_cuda_int _ _
                (reach_uninit cfg_cuda_int 100 (idle_world true)))
    as (H & _ & _ & _).
  pose proof (allocation_state_invariant_reachable cfg_cuda_int _ _
                (reach_clear cfg_cuda_int _ _
                   (AsyncArray_uninit cfg_cuda_int 100 (idle_world true)).1
                   (reach_uninit cfg_cuda_int 100 (idle_world true))))
    as (_ & Hnull & _ & _).
  cbv zeta. split.
  - cbn in H. unfold allocation_state_invariant in H. cbn in H.
    destruct H as [H|[H|[H|H]]]; destruct_and!; try done.
  - by apply Hnull.
Defined.

(** * Clearing a buffer without allocations *)

Lemma clear_fresh_array cfg w :
  clear cfg fresh_array w =
    (if async_active cfg w then w else arena_free The_Pinned_Arena nullptr w,
     fresh_array).
Proof. unfold clear, async_active. cbn. by destruct (use_gpu cfg && inLaunchRegion w). Qed.

Lemma clear_result cfg a w : (clear cfg a w).2 = fresh_array.
Proof. done. Qed.

Lemma free_null_keeps_blocks ar w :
  null_not_live w →
  let w' := arena_free ar nullptr w in
  launch_region w' = launch_region w ∧ pinned w' = pinned w ∧
  device w' = device w ∧ stream w' = stream w.
Proof.
  intros [Hp Hd]. destruct ar; cbn; split_and!; try done; by apply delete_id.
Qed.

(** C4, counterexample.  In a build without GPU support, clearing the
    empty buffer made by [AsyncArray(0)] calls [free] on the pinned
    host arena, with a null pointer. *)
Lemma empty_clear_calls_free_counterexample :
  let a := (AsyncArray_uninit cfg_host_int 0 (idle_world false)).2 in
  let w' := (clear cfg_host_int a (idle_world false)).1 in
  a = fresh_array ∧
  log w' = [EvFree The_Pinned_Arena nullptr] ∧
  log w' ≠ log (idle_world false).
Proof. cbv zeta. split_and!; [reflexivity | reflexivity | discriminate]. Qed.

(** C4, amended.  For [n == 0] both constructors return the empty
    buffer and leave the world as it is (no arena call), [data()] is
    null, [copyToHost] with count 0 copies nothing, and [clear()] on the
    empty buffer allocates nothing and frees no block: arenas and stream
    stay as they are.  In asynchronous mode it makes no arena call at
    all; in synchronous mode it makes one call, [free] on the pinned
    host arena with a null pointer. *)
Theorem empty_buffer_operations cfg h_p w :
  null_not_live w →
  AsyncArray_from_host cfg h_p 0 w = (w, fresh_array) ∧
  AsyncArray_uninit cfg 0 w = (w, fresh_array) ∧
  data fresh_array = nullptr ∧
  (∀ a, copyToHost cfg a h_p 0 w = (w, h_p)) ∧
  let w' := (clear cfg fresh_array w).1 in
  (clear cfg fresh_array w).2 = fresh_array ∧
  launch_region w' = launch_region w ∧
  pinned w' = pinned w ∧ device w' = device w ∧ stream w' = stream w ∧
  log w' = if async_active cfg w then log w
           else log w ++ [EvFree The_Pinned_Arena nullptr].
Proof.
  intros Hnull.
  destruct (free_null_keeps_blocks The_Pinned_Arena w Hnull) as (F1 & F2 & F3 & F4).
  split_and!; try done.
  cbv zeta. rewrite clear_fresh_array. cbn [fst snd].
  destruct (async_active cfg w); split_and!; done.
Qed.

Lemma empty_buffer_operations_witness :
  null_not_live (idle_world true) ∧
  AsyncArray_from_host cfg_cuda_int src_1234 0 (idle_world true)
    = (idle_world true, fresh_array) ∧
  log (clear cfg_cuda_int fresh_array (idle_world true)).1 = [].
Proof.
  assert (Hn : null_not_live (idle_world true)) by (split; reflexivity).
  pose proof (empty_buffer_operations cfg_cuda_int src_1234 (idle_world true) Hn)
    as (H1 & _ & _ & _ & H).
  cbv zeta in H. destruct H as (_ & _ & _ & _ & _ & Hlog).
  split_and!; [exact Hn | exact H1 | exact Hlog].
Defined.

(** C8.  [clear()] leaves both pointers null, so [data()] is null from
    then on; the buffer is a value of its own, so this holds in every
    later world, whether or not a deferred release has run.  Clearing
    the buffer again, in any later world [w2], is a no-op on arenas and
    stream: no block is freed (none of the blocks the buffer owned is
    freed a second time), nothing is enqueued, and the only arena call
    that can occur is [free] of a null pointer on the pinned host arena. *)
Theorem clear_twice_releases_nothing cfg a w w2 :
  null_not_live w2 →
  let a' := (clear cfg a w).2 in
  d_data a' = nullptr ∧ h_data a' = nullptr ∧ data a' = nullptr ∧
  let w2' := (clear cfg a' w2).1 in
  (clear cfg a' w2).2 = a' ∧
  pinned w2' = pinned w2 ∧ device w2' = device w2 ∧ stream w2' = stream w2 ∧
  (log w2' = log w2 ∨ log w2' = log w2 ++ [EvFree The_Pinned_Arena nullptr]).
Proof.
  intros Hnull.
  destruct (free_null_keeps_blocks The_Pinned_Arena w2 Hnull) as (F1 & F2 & F3 & F4).
  cbv zeta. rewrite clear_result, clear_fresh_array. cbn [fst snd].
  destruct (async_active cfg w2); split_and!; try done; [by left | by right].
Qed.

Lemma clear_twice_releases_nothing_witness :
  let w1 := (clear cfg_cuda_int built_busy.2 built_busy.1).1 in
  let a' := (clear cfg_cuda_int built_busy.2 built_busy.1).2 in
  let w2 := run_stream 4 w1 in
  null_not_live w2 ∧ stream w2 = [] ∧ data a' = nullptr ∧
  pinned (clear cfg_cuda_int a' w2).1 = pinned w2 ∧
  device (clear cfg_cuda_int a' w2).1 = device w2.
Proof.
  cbv zeta.
  assert (Hn : null_not_live
                 (run_stream 4 (clear cfg_cuda_int built_busy.2 built_busy.1).1))
    by (split; vm_compute; reflexivity).
  pose proof (clear_twice_releases_nothing cfg_cuda_int built_busy.2 built_busy.1
                _ Hn) as (_ & _ & Hdata & H).
  cbv zeta in H. destruct H as (_ & Hp & Hd & _ & _).
  split_and!; [exact Hn | reflexivity | exact Hdata | exact Hp | exact Hd].
Defined.

(** * Construct, then copy back *)

Lemma memcpy_bytes_roundtrip dst blk src bytes :
  length src = N.to_nat bytes → length dst = N.to_nat bytes →
  memcpy_bytes dst (memcpy_bytes blk src bytes) bytes = src.
Proof.
  intros Hs Hd. unfold memcpy_bytes.
  rewrite (take_ge src) by lia.
  rewrite take_app_length' by done.
  rewrite drop_ge by lia. apply app_nil_r.
Qed.

Lemma nbytes_no_wrap cfg n :
  n * Npos (sizeofT cfg) < 2 ^ 64 → nbytes cfg n = n * Npos (sizeofT cfg).
Proof. intros H. unfold nbytes, size_mul. by apply N.mod_small. Qed.

(** The device-to-host copy of a block that the stream still has to
    fill from a pinned block returns the pinned bytes. *)
Lemma dtoh_after_pending_htod dst d h bytes src s w :
  stream w = s ++ [OpHtoD d h bytes] →
  pinned w !! h = Some src →
  live The_Arena d w →
  Forall (λ op, ¬ op_frees The_Pinned_Arena h op) s →
  Forall (λ op, ¬ op_frees The_Arena d op) s →
  length src = N.to_nat bytes → length dst = N.to_nat bytes →
  (dtoh_memcpy dst d bytes w).2 = src.
Proof.
  intros Hs Hh Hd Fh Fd Ls Ld. unfold dtoh_memcpy, streamSynchronize. cbn.
  rewrite Hs, run_ops_app. cbn.
  set (w2 := run_ops s (set_stream [] w)).
  assert (Hh2 : pinned w2 !! h = Some src).
  { unfold w2. by rewrite run_ops_pinned_lookup. }
  assert (Hd2 : live The_Arena d w2).
  { unfold w2. by apply run_ops_live. }
  rewrite Hh2. cbn. rewrite lookup_alter_eq.
  destruct Hd2 as [blk Hblk]. cbn in Hblk. rewrite Hblk. cbn.
  by apply memcpy_bytes_roundtrip.
Qed.

(** C1.  For every [n > 0] and every element size, a buffer built from
    a host source of [n] elements and then copied back with
    [copyToHost] into a destination of [n] elements leaves the
    destination equal, byte for byte, to the source.  This holds in
    every build and for either answer of the launch-region query: on
    the device path the copy back waits for the pending host-to-device
    copy, on the host path it is a [memcpy] from the pinned block. *)
Theorem from_host_copyToHost_roundtrip cfg h_p dst n w :
  0 < n →
  n * Npos (sizeofT cfg) < 2 ^ 64 →
  N.of_nat (length h_p) = n * Npos (sizeofT cfg) →
  length dst = length h_p →
  pending_frees_live w →
  let w1 := (AsyncArray_from_host cfg h_p n w).1 in
  let a := (AsyncArray_from_host cfg h_p n w).2 in
  (copyToHost cfg a dst n w1).2 = h_p.
Proof.
  intros Hn Hfit Hsrc Hdst Hw.
  pose proof (nbytes_no_wrap cfg n Hfit) as Hb.
  assert (Ls : length h_p = N.to_nat (nbytes cfg n)) by lia.
  assert (Ld : length dst = N.to_nat (nbytes cfg n)) by lia.
  pose proof (fresh_not_pending The_Pinned_Arena w Hw) as Fh.
  pose proof (fresh_not_pending The_Arena w Hw) as Fd.
  cbv zeta. unfold AsyncArray_from_host, copyToHost, inLaunchRegion.
  destruct (N.eqb_spec n 0) as [->|_]; [lia|].
  cbn -[nbytes dtoh_memcpy].
  destruct (use_gpu cfg) eqn:Hg; destruct (launch_region w) eqn:Hl;
    cbn -[nbytes dtoh_memcpy];
    rewrite ?(is_null_false _ (arena_pick_nonnull _)), ?alter_insert_eq;
    cbn -[nbytes dtoh_memcpy].
  2-4: rewrite ?andb_false_r; cbn -[nbytes];
       rewrite lookup_insert_eq;
       rewrite (memcpy_bytes_exact _ h_p) by (by rewrite ?length_fresh_block, ?length_replicate);
       by apply memcpy_bytes_exact.
  eapply dtoh_after_pending_htod with (s := stream w) (h := arena_pick (pinned w));
    cbn -[nbytes]; try done.
  - rewrite lookup_insert_eq. f_equal.
    apply memcpy_bytes_exact; by rewrite ?length_fresh_block, ?length_replicate.
  - unfold live. cbn. by rewrite lookup_insert_eq.
Qed.

Lemma busy_world_frees_live : pending_frees_live busy_world.
Proof.
  intros ar p Hp Hl. unfold not_pending_free. cbn.
  constructor; [destruct ar; cbn; tauto|].
  constructor; [|constructor].
  destruct ar; cbn; intros <-; apply Hl; by eexists.
Qed.

Lemma from_host_copyToHost_roundtrip_witness :
  let w1 := (AsyncArray_from_host cfg_cuda_int src_1234 4 busy_world).1 in
  let a := (AsyncArray_from_host cfg_cuda_int src_1234 4 busy_world).2 in
  d_data a ≠ nullptr ∧
  (copyToHost cfg_cuda_int a (replicate 16 Byte.xff) 4 w1).2 = src_1234.
Proof.
  split; [by vm_compute|].
  apply from_host_copyToHost_roundtrip;
    [reflexivity | reflexivity | reflexivity | reflexivity | apply busy_world_frees_live].
Defined.

(** * Deferred release *)

Lemma exec_op_frees_device d op w :
  op_frees The_Arena d op → ¬ live The_Arena d (exec_op op w).
Proof.
  unfold live. destruct op as [d' h b|d' dat|r|pd ph]; cbn; try done.
  - intros <-. unfold amrex_asyncarray_delete.
    destruct (is_null (rec_h r)); cbn; rewrite lookup_delete_eq; by intros [? ?].
  - intros <-. rewrite lookup_delete_eq. by intros [? ?].
Qed.

Lemma live_set_stream ar p s w : live ar p (set_stream s w) ↔ live ar p w.
Proof. by destruct ar. Qed.





(** * The mode at construction and the mode at release *)

Lemma held_act ar p x w : held ar p w → held ar p (act x w).
Proof.
  intros [Hl Hf]. destruct x as [b|d dat| |]; cbn.
  - split; [by destruct ar|done].
  - split; [by destruct ar|].
    unfold not_pending_free. cbn. apply Forall_app. split; [done|].
    constructor; [destruct ar; cbn; tauto|constructor].
  - unfold stream_step. unfold not_pending_free in Hf.
    destruct (stream w) as [|op rest] eqn:Hs.
    { split; [done|]. unfold not_pending_free. rewrite Hs. constructor. }
    apply Forall_cons in Hf as [Hop Hrest]. split.
    + apply exec_op_live; [done|]. by apply live_set_stream.
    + unfold not_pending_free. by rewrite exec_op_stream.
  - unfold streamSynchronize. split.
    + assert (live ar p (run_ops (stream w) (set_stream [] w))) as Hr.
      { apply run_ops_live; [done|]. by apply live_set_stream. }
      by destruct ar.
    + unfold not_pending_free. cbn. rewrite run_ops_stream. cbn. constructor.
Qed.

Lemma held_run_actions ar p xs w : held ar p w → held ar p (run_actions xs w).
Proof.
  revert w. induction xs as [|x xs IH]; intros w Hh; [done|].
  cbn. fold (run_actions xs (act x w)). by apply IH, held_act.
Qed.

(** What a constructor allocated is held when it returns. *)
Lemma from_host_held cfg h_p n w :
  0 < n → pending_frees_live w →
  let w1 := (AsyncArray_from_host cfg h_p n w).1 in
  let a := (AsyncArray_from_host cfg h_p n w).2 in
  h_data a ≠ nullptr ∧ held The_Pinned_Arena (h_data a) w1 ∧
  if async_active cfg w
  then d_data a ≠ nullptr ∧ held The_Arena (d_data a) w1
  else d_data a = nullptr.
Proof.
  intros Hn Hw.
  pose proof (fresh_not_pending The_Pinned_Arena w Hw) as Fh.
  pose proof (fresh_not_pending The_Arena w Hw) as Fd.
  cbv zeta. unfold AsyncArray_from_host, async_active, inLaunchRegion.
  destruct (N.eqb_spec n 0) as [->|_]; [lia|].
  cbn -[nbytes].
  destruct (use_gpu cfg && launch_region w); cbn -[nbytes];
    (split; [apply arena_pick_nonnull|]).
  - split_and!.
    + split; [unfold live; cbn; rewrite alter_insert_eq; by rewrite lookup_insert_eq|].
      unfold not_pending_free. cbn. apply Forall_app. split; [done|].
      constructor; [cbn; tauto|constructor].
    + apply arena_pick_nonnull.
    + split; [unfold live; cbn; by rewrite lookup_insert_eq|].
      unfold not_pending_free. cbn. apply Forall_app. split; [done|].
      constructor; [cbn; tauto|constructor].
  - split; [|done].
    split; [unfold live; cbn; rewrite alter_insert_eq; by rewrite lookup_insert_eq|done].
Qed.

Lemma uninit_held cfg n w :
  0 < n → pending_frees_live w →
  let w1 := (AsyncArray_uninit cfg n w).1 in
  let a := (AsyncArray_uninit cfg n w).2 in
  if async_active cfg w
  then h_data a = nullptr ∧ d_data a ≠ nullptr ∧ held The_Arena (d_data a) w1
  else d_data a = nullptr ∧ h_data a ≠ nullptr ∧ held The_Pinned_Arena (h_data a) w1.
Proof.
  intros Hn Hw.
  pose proof (fresh_not_pending The_Pinned_Arena w Hw) as Fh.
  pose proof (fresh_not_pending The_Arena w Hw) as Fd.
  cbv zeta. unfold AsyncArray_uninit, async_active.
  destruct (N.eqb_spec n 0) as [->|_]; [lia|].
  destruct (use_gpu cfg && inLaunchRegion w); cbn -[nbytes];
    (split; [done|]); (split; [apply arena_pick_nonnull|]);
    (split; [unfold live; cbn; by rewrite lookup_insert_eq|done]).
Qed.

(** [clear] in synchronous mode: one [free], of the host pointer. *)
Lemma clear_sync cfg a w :
  async_active cfg w = false →
  (clear cfg a w).1 = arena_free The_Pinned_Arena (h_data a) w.
Proof. unfold clear, async_active. by intros ->. Qed.

(** [clear] in asynchronous mode without a device pointer: nothing. *)
Lemma clear_async_no_device cfg a w :
  async_active cfg w = true → d_data a = nullptr → (clear cfg a w).1 = w.
Proof. unfold clear, async_active. by intros -> ->. Qed.

Lemma held_free_other ar ar' p q w :
  ar ≠ ar' → held ar p w → held ar p (arena_free ar' q w).
Proof. intros Hne [Hl Hf]. by destruct ar, ar'. Qed.

Lemma not_live_after_free ar p w : ¬ live ar p (arena_free ar p w).
Proof. unfold live. destruct ar; cbn; rewrite lookup_delete_eq; by intros [? ?]. Qed.

(** C3.  [clear()] asks [Gpu::inLaunchRegion()] again and frees by that
    answer, whatever the answer was at construction.  If the mode at
    release differs from the mode at construction, an allocation leaks.
    Built in asynchronous mode and cleared in synchronous mode, the
    only arena call is [free] of the host pointer (a real block for the
    from-host constructor, null for the uninitialised one) and the
    device block leaks.  Built in synchronous mode and cleared in
    asynchronous mode, [clear()] does nothing to the world and the host
    block leaks.  A leaked block stays live whatever the caller and the
    runtime do to the stream afterwards. *)
Theorem clear_follows_mode_at_release cfg o h_p n w xs :
  0 < n →
  pending_frees_live w →
  let built := construct cfg o h_p n w in
  let w2 := run_actions xs built.1 in
  async_active cfg w2 ≠ async_active cfg w →
  let w3 := (clear cfg built.2 w2).1 in
  (clear cfg built.2 w2).2 = fresh_array ∧
  if async_active cfg w then
    log w3 = log w2 ++ [EvFree The_Pinned_Arena (h_data built.2)] ∧
    match o with
    | FromHost => h_data built.2 ≠ nullptr
    | Uninit => h_data built.2 = nullptr
    end ∧
    ¬ live The_Pinned_Arena (h_data built.2) w3 ∧
    leaked The_Arena (d_data built.2) w3 ∧
    ∀ ys, live The_Arena (d_data built.2) (run_actions ys w3)
  else
    w3 = w2 ∧
    leaked The_Pinned_Arena (h_data built.2) w3 ∧
    ∀ ys, live The_Pinned_Arena (h_data built.2) (run_actions ys w3).
Proof.
  intros Hn Hw built w2 Hmode w3.
  split; [done|].
  destruct (async_active cfg w) eqn:Ha.
  - assert (Hd : d_data built.2 ≠ nullptr ∧ held The_Arena (d_data built.2) built.1 ∧
                 match o with
                 | FromHost => h_data built.2 ≠ nullptr
                 | Uninit => h_data built.2 = nullptr
                 end).
    { unfold built. destruct o; cbn [construct].
      - pose proof (from_host_held cfg h_p n w Hn Hw) as H. cbv zeta in H.
        rewrite Ha in H. tauto.
      - pose proof (uninit_held cfg n w Hn Hw) as H. cbv zeta in H.
        rewrite Ha in H. tauto. }
    destruct Hd as (Hd & Hheld & Hh).
    assert (Ha2 : async_active cfg w2 = false) by (by destruct (async_active cfg w2)).
    assert (Hw3 : w3 = arena_free The_Pinned_Arena (h_data built.2) w2)
      by (by apply clear_sync).
    assert (Hheld3 : held The_Arena (d_data built.2) w3).
    { rewrite Hw3. apply held_free_other; [done|]. by apply held_run_actions. }
    split_and!; try done.
    + by rewrite Hw3.
    + rewrite Hw3. apply not_live_after_free.
    + intros ys. by apply held_run_actions.
  - assert (Hh : d_data built.2 = nullptr ∧ h_data built.2 ≠ nullptr ∧
                 held The_Pinned_Arena (h_data built.2) built.1).
    { unfold built. destruct o; cbn [construct].
      - pose proof (from_host_held cfg h_p n w Hn Hw) as H. cbv zeta in H.
        rewrite Ha in H. tauto.
      - pose proof (uninit_held cfg n w Hn Hw) as H. cbv zeta in H.
        rewrite Ha in H. tauto. }
    destruct Hh as (Hd & Hh & Hheld).
    assert (Ha2 : async_active cfg w2 = true) by (by destruct (async_active cfg w2)).
    assert (Hw3 : w3 = w2) by (by apply clear_async_no_device).
    assert (Hheld3 : held The_Pinned_Arena (h_data built.2) w3).
    { rewrite Hw3. by apply held_run_actions. }
    split_and!; try done.
    intros ys. by apply held_run_actions.
Qed.

Lemma clear_follows_mode_at_release_witness :
  let xs := [Launch 2 [Byte.x07]; SetLaunchRegion false; Complete] in
  let built := construct cfg_cuda_int FromHost src_1234 4 busy_world in
  let w2 := run_actions xs built.1 in
  let w3 := (clear cfg_cuda_int built.2 w2).1 in
  async_active cfg_cuda_int busy_world = true ∧
  async_active cfg_cuda_int w2 = false ∧
  log w3 = [EvAlloc The_Pinned_Arena 16 2; EvAlloc The_Arena 16 2;
            EvFree The_Pinned_Arena 2] ∧
  live The_Arena 2 (run_actions [Synchronize] w3).
Proof.
  cbv zeta.
  pose proof (clear_follows_mode_at_release cfg_cuda_int FromHost src_1234 4 busy_world
                [Launch 2 [Byte.x07]; SetLaunchRegion false; Complete]
                ltac:(reflexivity) busy_world_frees_live ltac:(by vm_compute))
    as (_ & H).
  change (async_active cfg_cuda_int busy_world) with true in H.
  destruct H as (Hlog & _ & _ & _ & Hlive).
  split_and!; [reflexivity | reflexivity | exact Hlog | exact (Hlive [Synchronize])].
Defined.

(** * The constructors' worlds, written out *)

Lemma from_host_world cfg h_p n w :
  n ≠ 0 →
  AsyncArray_from_host cfg h_p n w =
    let h := arena_pick (pinned w) in
    let d := arena_pick (device w) in
    let nb := nbytes cfg n in
    let hb := memcpy_bytes (fresh_block nb) h_p nb in
    if async_active cfg w then
      ({| launch_region := launch_region w;
          pinned := <[h := hb]> (pinned w);
          device := <[d := fresh_block nb]> (device w);
          stream := stream w ++ [OpHtoD d h nb];
          log := log w ++ [EvAlloc The_Pinned_Arena nb h; EvAlloc The_Arena nb d] |},
       {| d_data := d; h_data := h |})
    else
      ({| launch_region := launch_region w;
          pinned := <[h := hb]> (pinned w);
          device := device w;
          stream := stream w;
          log := log w ++ [EvAlloc The_Pinned_Arena nb h] |},
       {| d_data := nullptr; h_data := h |}).
Proof.
  intros Hn. unfold AsyncArray_from_host, async_active, inLaunchRegion.
  destruct (N.eqb_spec n 0); [done|]. cbn -[nbytes].
  destruct (use_gpu cfg && launch_region w); cbn -[nbytes];
    unfold htod_memcpy_async, enqueue, record, set_stream; cbn -[nbytes];
    rewrite ?alter_insert_eq, <- ?app_assoc; done.
Qed.

Lemma uninit_world cfg n w :
  n ≠ 0 →
  AsyncArray_uninit cfg n w =
    let nb := nbytes cfg n in
    if async_active cfg w then
      let d := arena_pick (device w) in
      ({| launch_region := launch_region w;
          pinned := pinned w;
          device := <[d := fresh_block nb]> (device w);
          stream := stream w;
          log := log w ++ [EvAlloc The_Arena nb d] |},
       {| d_data := d; h_data := nullptr |})
    else
      let h := arena_pick (pinned w) in
      ({| launch_region := launch_region w;
          pinned := <[h := fresh_block nb]> (pinned w);
          device := device w;
          stream := stream w;
          log := log w ++ [EvAlloc The_Pinned_Arena nb h] |},
       {| d_data := nullptr; h_data := h |}).
Proof.
  intros Hn. unfold AsyncArray_uninit, async_active.
  destruct (N.eqb_spec n 0); [done|].
  by destruct (use_gpu cfg && inLaunchRegion w).
Qed.

Lemma construct_zero cfg o h_p w : construct cfg o h_p 0 w = (w, fresh_array).
Proof. by destruct o. Qed.

Lemma construct_launch_region cfg o h_p n w :
  launch_region (construct cfg o h_p n w).1 = launch_region w.
Proof.
  destruct (N.eqb_spec n 0) as [->|Hn]; [by rewrite construct_zero|].
  destruct o; cbn [construct];
    [rewrite from_host_world by done|rewrite uninit_world by done];
    cbv zeta; by destruct (async_active cfg w).
Qed.

Lemma construct_async_active cfg o h_p n w :
  async_active cfg (construct cfg o h_p n w).1 = async_active cfg w.
Proof.
  unfold async_active, inLaunchRegion. by rewrite construct_launch_region.
Qed.

Lemma length_memcpy_bytes dst src bytes :
  (N.to_nat bytes ≤ length src)%nat → (N.to_nat bytes ≤ length dst)%nat →
  length (memcpy_bytes dst src bytes) = length dst.
Proof.
  intros Hs Hd. unfold memcpy_bytes.
  rewrite length_app, length_take, length_drop. lia.
Qed.

(** * Synchronous lifetimes *)

(** X1.  In synchronous mode, building a buffer (either constructor,
    any [n]) and destroying it at once gives both arenas, the stream and
    the launch-region flag back exactly as they were: the one block the
    constructor took is the one block the destructor frees. *)
Theorem construct_destroy_sync_restores cfg o h_p n w :
  null_not_live w →
  async_active cfg w = false →
  let built := construct cfg o h_p n w in
  let w' := destructor cfg built.2 built.1 in
  pinned w' = pinned w ∧ device w' = device w ∧
  stream w' = stream w ∧ launch_region w' = launch_region w.
Proof.
  intros Hnull Ha. cbv zeta. unfold destructor.
  rewrite clear_sync by (by rewrite construct_async_active).
  destruct (N.eqb_spec n 0) as [->|Hn].
  - rewrite construct_zero. cbn [fst snd fresh_array h_data].
    destruct (free_null_keeps_blocks The_Pinned_Arena w Hnull) as (F1 & F2 & F3 & F4).
    done.
  - destruct o; cbn [construct];
      [rewrite from_host_world by done|rewrite uninit_world by done];
      cbv zeta; rewrite Ha; cbn -[nbytes];
      (split_and!; try done); apply delete_insert_id; auto with arena.
Qed.

Lemma construct_destroy_sync_restores_witness :
  let built := construct cfg_cuda_int FromHost src_1234 4 (idle_world false) in
  null_not_live (idle_world false) ∧
  h_data built.2 = 1 ∧
  pinned (destructor cfg_cuda_int built.2 built.1) = ∅.
Proof.
  assert (Hn : null_not_live (idle_world false)) by (split; reflexivity).
  pose proof (construct_destroy_sync_restores cfg_cuda_int FromHost src_1234 4
                (idle_world false) Hn ltac:(reflexivity)) as (Hp & _).
  cbv zeta. split_and!; [exact Hn | reflexivity | exact Hp].
Defined.

(** X2.  In synchronous mode (no GPU build, or outside a launch region)
    neither constructor nor [clear()] ever touches the device arena or
    the stream, and every arena call they make is on the pinned host
    arena; the same holds for [copyToHost] on a buffer without a device
    pointer, which changes nothing in the world at all. *)
Theorem sync_mode_stays_on_host cfg a h_p n w :
  async_active cfg w = false →
  (∀ o, let w' := (construct cfg o h_p n w).1 in
        device w' = device w ∧ stream w' = stream w ∧
        ∃ evs, log w' = log w ++ evs ∧ Forall pinned_event evs) ∧
  (let w' := (clear cfg a w).1 in
   device w' = device w ∧ stream w' = stream w ∧
   log w' = log w ++ [EvFree The_Pinned_Arena (h_data a)]) ∧
  (d_data a = nullptr → (copyToHost cfg a h_p n w).1 = w).
Proof.
  intros Ha. split_and!.
  - intros o. cbv zeta.
    destruct (N.eqb_spec n 0) as [->|Hn].
    { rewrite construct_zero. split_and!; try done.
      exists []. by rewrite app_nil_r. }
    destruct o; cbn [construct];
      [rewrite from_host_world by done|rewrite uninit_world by done];
      cbv zeta; rewrite Ha; cbn -[nbytes]; (split_and!; try done);
      eexists; (split; [done|]); by repeat constructor.
  - cbv zeta. by rewrite clear_sync.
  - intros Hd. unfold copyToHost. rewrite Hd. cbn.
    rewrite andb_false_r. destruct (n =? 0); [done|].
    by destruct (negb (is_null (h_data a))).
Qed.

Lemma sync_mode_stays_on_host_witness :
  let w' := (construct cfg_host_int Uninit [] 100 busy_world).1 in
  async_active cfg_host_int busy_world = false ∧
  device w' = device busy_world ∧ stream w' = stream busy_world.
Proof.
  pose proof (sync_mode_stays_on_host cfg_host_int fresh_array [] 100 busy_world
                ltac:(reflexivity)) as (H & _).
  destruct (H Uninit) as (Hd & Hs & _).
  cbv zeta. split_and!; [reflexivity | exact Hd | exact Hs].
Defined.

Lemma data_device_ptr d h : d ≠ 0 → data {| d_data := d; h_data := h |} = d.
Proof. intros Hd. unfold data. cbn. by rewrite (is_null_false _ Hd). Qed.

Lemma data_host_ptr h : data {| d_data := nullptr; h_data := h |} = h.
Proof. done. Qed.

(** X3.  After either constructor, [data()] is null exactly when
    [n == 0]; for [n > 0] it points to a live block of [n*sizeof(T)]
    bytes, in the device arena if asynchronous execution was active and
    in the pinned host arena otherwise.  (The source must hold the
    [n*sizeof(T)] bytes the from-host constructor reads.) *)
Theorem data_after_construction cfg o h_p n w :
  (o = FromHost → (N.to_nat (nbytes cfg n) ≤ length h_p)%nat) →
  let built := construct cfg o h_p n w in
  (data built.2 = nullptr ↔ n = 0) ∧
  (0 < n →
   ∃ blk, arena_mem (home_arena cfg w) built.1 !! data built.2 = Some blk ∧
          length blk = N.to_nat (nbytes cfg n)).
Proof.
  intros Hsrc. cbv zeta.
  destruct (N.eqb_spec n 0) as [->|Hn].
  { rewrite construct_zero. split; [done|lia]. }
  unfold home_arena.
  destruct o; cbn [construct];
    [rewrite from_host_world by done|rewrite uninit_world by done];
    cbv zeta; destruct (async_active cfg w); cbn -[nbytes data];
    rewrite ?data_host_ptr, ?data_device_ptr by auto with arena.
  all: split; [split; [intros H; by apply arena_pick_nonnull in H|done]|].
  all: intros _; eexists; split; [apply lookup_insert_eq|].
  all: rewrite ?length_fresh_block; try done.
  rewrite length_memcpy_bytes; rewrite ?length_fresh_block; auto.
Qed.

Lemma data_after_construction_witness :
  let built := construct cfg_cuda_int FromHost src_1234 4 busy_world in
  data built.2 = 2 ∧
  device built.1 !! 2 = Some (fresh_block 16).
Proof.
  pose proof (data_after_construction cfg_cuda_int FromHost src_1234 4 busy_world
                ltac:(intros _; vm_compute; lia)) as (_ & H).
  destruct (H ltac:(reflexivity)) as (blk & Hb & _).
  cbv zeta. split; [reflexivity|]. by vm_compute.
Defined.

(** * More on running the stream *)

Lemma not_live_null ar w : null_not_live w → ¬ live ar nullptr w.
Proof. intros [Hp Hd]. unfold live. destruct ar; cbn; rewrite ?Hp, ?Hd; by intros [? ?]. Qed.

(** Units never create blocks. *)
Lemma exec_op_live_inv ar p op w : live ar p (exec_op op w) → live ar p w.
Proof.
  unfold live. destruct op as [d h b|d dat|r|pd ph]; destruct ar; cbn; try done.
  - by destruct (pinned w !! h).
  - destruct (pinned w !! h); cbn; [|done]. by rewrite lookup_alter_is_Some.
  - by rewrite lookup_alter_is_Some.
  - unfold amrex_asyncarray_delete. destruct (is_null (rec_h r)); cbn; [done|].
    rewrite lookup_delete_is_Some. tauto.
  - unfold amrex_asyncarray_delete. destruct (is_null (rec_h r)); cbn;
      rewrite lookup_delete_is_Some; tauto.
  - rewrite lookup_delete_is_Some. tauto.
  - rewrite lookup_delete_is_Some. tauto.
Qed.

Lemma run_ops_live_inv ar p ops w : live ar p (run_ops ops w) → live ar p w.
Proof.
  revert w. induction ops as [|op ops IH]; intros w; [done|].
  cbn. fold (run_ops ops (exec_op op w)). intros H.
  by apply (exec_op_live_inv ar p op), IH.
Qed.

Lemma drained_eq w : drained w = run_ops (stream w) (set_stream [] w).
Proof. apply run_stream_all. Qed.

Lemma drained_stream w : stream (drained w) = [].
Proof. rewrite drained_eq. by rewrite run_ops_stream. Qed.

Lemma drained_enqueue op w :
  drained (enqueue op w) = exec_op op (drained w).
Proof.
  rewrite !drained_eq. cbn [enqueue set_stream stream].
  by rewrite run_ops_app.
Qed.

Lemma drained_idle w : stream w = [] → drained w = w.
Proof. intros H. unfold drained. by rewrite H. Qed.

Lemma null_not_live_run_actions xs w :
  null_not_live w → null_not_live (run_actions xs w).
Proof.
  revert w. induction xs as [|x xs IH]; intros w Hw; [done|].
  cbn. fold (run_actions xs (act x w)). by apply IH, null_not_live_act.
Qed.

Lemma null_not_live_drained w : null_not_live w → null_not_live (drained w).
Proof.
  intros Hw. rewrite drained_eq.
  by pose proof (null_not_live_run_ops (stream w) (set_stream [] w) Hw).
Qed.

(** The log grows by the events of the units run, in order. *)
Lemma exec_op_log op w : log (exec_op op w) = log w ++ op_events op.
Proof.
  destruct op as [d h b|d dat|r|pd ph]; cbn.
  - destruct (pinned w !! h); cbn; by rewrite app_nil_r.
  - by rewrite app_nil_r.
  - unfold amrex_asyncarray_delete. destruct (is_null (rec_h r)); cbn; [done|].
    by rewrite <- app_assoc.
  - by rewrite <- app_assoc.
Qed.

Lemma run_ops_log ops w :
  log (run_ops ops w) = log w ++ flat_map op_events ops.
Proof.
  revert w. induction ops as [|op ops IH]; intros w; cbn.
  - by rewrite app_nil_r.
  - fold (run_ops ops (exec_op op w)). rewrite IH, exec_op_log.
    by rewrite <- app_assoc.
Qed.

Lemma drained_log w : log (drained w) = log w ++ flat_map op_events (stream w).
Proof. rewrite drained_eq. by rewrite run_ops_log. Qed.

(** A unit writes and frees only the device blocks it names. *)
Lemma exec_op_device_lookup d op w :
  ¬ op_writes d op → ¬ op_frees The_Arena d op →
  device (exec_op op w) !! d = device w !! d.
Proof.
  destruct op as [d' h b|d' dat|r|pd ph]; cbn; intros Hw Hf.
  - destruct (pinned w !! h); cbn; [|done]. by rewrite lookup_alter_ne.
  - by rewrite lookup_alter_ne.
  - unfold amrex_asyncarray_delete.
    destruct (is_null (rec_h r)); cbn; by rewrite lookup_delete_ne.
  - by rewrite lookup_delete_ne.
Qed.

Lemma run_ops_device_lookup d ops w :
  Forall (λ op, ¬ op_writes d op) ops →
  Forall (λ op, ¬ op_frees The_Arena d op) ops →
  device (run_ops ops w) !! d = device w !! d.
Proof.
  intros Hw. revert w. induction Hw as [|op ops Hop _ IH]; intros w Hf; [done|].
  apply Forall_cons in Hf as [Hf1 Hf2].
  cbn. fold (run_ops ops (exec_op op w)). by rewrite IH, exec_op_device_lookup.
Qed.

(** * Whole lifetimes *)

Lemma is_null_true p : is_null p = true → p = 0.
Proof. unfold is_null. by intros ?%N.eqb_eq. Qed.

Lemma release_unit_frees_both op d h w :
  op = OpCallback {| rec_d := d; rec_h := h |} ∨ op = OpHostTask d h →
  null_not_live w →
  ¬ live The_Arena d (exec_op op w) ∧ ¬ live The_Pinned_Arena h (exec_op op w).
Proof.
  intros Hop Hnull. split.
  - apply exec_op_frees_device. by destruct Hop as [-> | ->].
  - destruct Hop as [-> | ->]; cbn.
    + unfold amrex_asyncarray_delete. cbn.
      destruct (is_null h) eqn:Hh.
      * apply is_null_true in Hh as ->.
        apply not_live_null, null_not_live_free, Hnull.
      * apply not_live_after_free.
    + apply not_live_after_free.
Qed.

(** Once [clear] has run in the mode the buffer's pointers fit and the
    stream has drained, neither pointer names a live block. *)
Lemma clear_drained_releases cfg a w :
  null_not_live w →
  (async_active cfg w = true → h_data a ≠ nullptr → d_data a ≠ nullptr) →
  (async_active cfg w = false → d_data a = nullptr) →
  let wd := drained (destructor cfg a w) in
  ¬ live The_Arena (d_data a) wd ∧ ¬ live The_Pinned_Arena (h_data a) wd.
Proof.
  intros Hnull Hasync Hsync. cbv zeta.
  assert (Hnd : null_not_live (drained (destructor cfg a w)))
    by (by apply null_not_live_drained, null_not_live_clear).
  destruct (async_active cfg w) eqn:Ha.
  - destruct (decide (d_data a = nullptr)) as [Hd|Hd].
    { destruct (decide (h_data a = nullptr)) as [Hh|Hh]; [|by apply Hasync in Hh].
      rewrite Hd, Hh. split; by apply not_live_null. }
    clear Hnd. unfold destructor, clear.
    change (use_gpu cfg && inLaunchRegion w) with (async_active cfg w).
    rewrite Ha, (is_null_false _ Hd). cbn [negb fst].
    unfold async_active, use_gpu in Ha.
    destruct (backend cfg); try done.
    1-3: rewrite drained_enqueue; apply release_unit_frees_both;
         [by auto | by apply null_not_live_drained].
    rewrite drained_idle by (cbn; by rewrite run_ops_stream).
    split; [|apply not_live_after_free].
    unfold live. cbn. rewrite lookup_delete_eq. by intros [? ?].
  - rewrite (Hsync eq_refl). split; [by apply not_live_null|].
    unfold destructor. rewrite clear_sync by done. rewrite drained_eq.
    intros Hl. apply run_ops_live_inv, live_set_stream in Hl.
    by apply not_live_after_free in Hl.
Qed.

(** X4.  If the launch-region answer at destruction is the one at
    construction, nothing leaks: for either constructor and any [n],
    whatever the caller and the runtime do to the stream in between,
    once the destructor has run and the stream has drained neither
    pointer of the buffer names a live block of its arena. *)
Theorem stable_mode_releases_everything cfg o h_p n w xs :
  null_not_live w →
  let built := construct cfg o h_p n w in
  let w2 := run_actions xs built.1 in
  async_active cfg w2 = async_active cfg w →
  let wd := drained (destructor cfg built.2 w2) in
  ¬ live The_Arena (d_data built.2) wd ∧
  ¬ live The_Pinned_Arena (h_data built.2) wd.
Proof.
  intros Hnull built w2 Hmode.
  assert (Hshape : (async_active cfg w = true →
                    h_data built.2 ≠ nullptr → d_data built.2 ≠ nullptr) ∧
                   (async_active cfg w = false → d_data built.2 = nullptr)).
  { unfold built. destruct o; cbn [construct].
    - pose proof (from_host_shape cfg h_p n w) as H. cbv zeta in H.
      destruct (n =? 0); [rewrite H; cbn; tauto|].
      destruct H as [Hh Hd]. destruct (async_active cfg w); split; by intros.
    - pose proof (uninit_shape cfg n w) as H. cbv zeta in H.
      destruct (n =? 0); [rewrite H; cbn; tauto|].
      destruct (async_active cfg w); split; intros; try done; tauto. }
  destruct Hshape as [Hs1 Hs2].
  apply clear_drained_releases.
  - by apply null_not_live_run_actions, null_not_live_construct.
  - by rewrite Hmode.
  - by rewrite Hmode.
Qed.

Lemma stable_mode_releases_everything_witness :
  let xs := [Launch 2 [Byte.x07]; Complete] in
  let w2 := run_actions xs built_busy.1 in
  let wd := drained (destructor cfg_cuda_int built_busy.2 w2) in
  live The_Arena 2 w2 ∧ live The_Pinned_Arena 2 w2 ∧
  ¬ live The_Arena 2 wd ∧ ¬ live The_Pinned_Arena 2 wd.
Proof.
  assert (Hn : null_not_live busy_world) by (split; reflexivity).
  pose proof (stable_mode_releases_everything cfg_cuda_int FromHost src_1234 4
                busy_world [Launch 2 [Byte.x07]; Complete] Hn ltac:(reflexivity))
    as [Hd Hh].
  cbv zeta. split_and!; [by eexists | by eexists | exact Hd | exact Hh].
Defined.

(** ** Counting frees *)

Lemma occurrences_app ev l1 l2 :
  occurrences ev (l1 ++ l2) = (occurrences ev l1 + occurrences ev l2)%nat.
Proof. unfold occurrences. by rewrite filter_app, length_app. Qed.

Lemma occurrences_cons ev e l :
  occurrences ev (e :: l) =
    ((if decide (e = ev) then 1 else 0) + occurrences ev l)%nat.
Proof. unfold occurrences. rewrite filter_cons. by case_decide. Qed.

Lemma occurrences_op_events ar p op :
  ¬ op_frees ar p op → occurrences (EvFree ar p) (op_events op) = 0%nat.
Proof.
  destruct op as [d h b|d dat|r|pd ph]; cbn [op_events]; intros Hf; try done.
  - destruct ar, (is_null (rec_h r)); cbn in Hf;
      rewrite ?occurrences_cons; repeat case_decide; simplify_eq; done.
  - destruct ar; cbn in Hf;
      rewrite ?occurrences_cons; repeat case_decide; simplify_eq; done.
Qed.

Lemma occurrences_not_pending ar p ops :
  Forall (λ op, ¬ op_frees ar p op) ops →
  occurrences (EvFree ar p) (flat_map op_events ops) = 0%nat.
Proof.
  induction 1 as [|op ops Hop _ IH]; [done|].
  cbn [flat_map]. by rewrite occurrences_app, IH, occurrences_op_events.
Qed.

(** X5.  When [clear()] runs in asynchronous mode on a buffer with a
    device block that nothing on the stream releases, then once the
    stream has drained the device block has been freed exactly once,
    and so has the host block if the buffer has one (and nothing on the
    stream releases it either): no double free, on any GPU back end. *)
Theorem clear_frees_exactly_once cfg a w :
  async_active cfg w = true →
  d_data a ≠ nullptr →
  not_pending_free The_Arena (d_data a) w →
  let wd := drained (destructor cfg a w) in
  ∃ evs, log wd = log w ++ evs ∧
         occurrences (EvFree The_Arena (d_data a)) evs = 1%nat ∧
         (h_data a ≠ nullptr →
          not_pending_free The_Pinned_Arena (h_data a) w →
          occurrences (EvFree The_Pinned_Arena (h_data a)) evs = 1%nat).
Proof.
  intros Ha Hd Fd. cbv zeta.
  pose proof (occurrences_not_pending _ _ _ Fd) as Od.
  pose proof (occurrences_not_pending The_Pinned_Arena (h_data a) (stream w)) as Oh.
  unfold destructor, clear.
  change (use_gpu cfg && inLaunchRegion w) with (async_active cfg w).
  rewrite Ha, (is_null_false _ Hd). cbn [negb fst].
  unfold async_active, use_gpu in Ha.
  destruct (backend cfg); try done.
  1-3: rewrite drained_enqueue, exec_op_log, drained_log, <- app_assoc;
       eexists; (split; [done|]);
       rewrite !occurrences_app, Od; cbn [op_events rec_d rec_h].
  1-2: split; [|intros Hh Fh; rewrite Oh by done; rewrite (is_null_false _ Hh)];
       [destruct (is_null (h_data a))|];
       rewrite !occurrences_cons; repeat case_decide; simplify_eq; done.
  - split; [|intros Hh Fh; rewrite Oh by done];
      rewrite !occurrences_cons; repeat case_decide; simplify_eq; done.
  - rewrite drained_idle by (cbn; by rewrite run_ops_stream).
    cbn. rewrite run_ops_log. cbn. rewrite <- !app_assoc.
    eexists; split; [done|].
    rewrite !occurrences_app, Od.
    split; [|intros Hh Fh; rewrite Oh by done];
      rewrite !occurrences_cons; repeat case_decide; simplify_eq; done.
Qed.

Lemma clear_frees_exactly_once_witness :
  let wd := drained (destructor cfg_cuda_int built_busy.2 built_busy.1) in
  log wd = log built_busy.1 ++
           [EvFree The_Arena 1; EvFree The_Pinned_Arena 1;
            EvFree The_Arena 2; EvFree The_Pinned_Arena 2].
Proof.
  pose proof (clear_frees_exactly_once cfg_cuda_int built_busy.2 built_busy.1
                ltac:(reflexivity) ltac:(by vm_compute)
                ltac:(solve_pending)) as (evs & Hlog & _).
  cbv zeta. cbv zeta in Hlog. rewrite Hlog. f_equal.
  apply (app_inv_head (log built_busy.1)). rewrite <- Hlog. by vm_compute.
Defined.

(** * Copying back, in general *)

Lemma copyToHost_device cfg a dst m w :
  use_gpu cfg = true → d_data a ≠ nullptr → m ≠ 0 →
  copyToHost cfg a dst m w = dtoh_memcpy dst (d_data a) (nbytes cfg m) w.
Proof.
  intros Hg Hd Hm. unfold copyToHost.
  destruct (N.eqb_spec m 0); [done|]. by rewrite Hg, (is_null_false _ Hd).
Qed.

Lemma copyToHost_host cfg a dst m w blk :
  d_data a = nullptr → h_data a ≠ nullptr → m ≠ 0 →
  pinned w !! h_data a = Some blk →
  copyToHost cfg a dst m w = (w, memcpy_bytes dst blk (nbytes cfg m)).
Proof.
  intros Hd Hh Hm Hb. unfold copyToHost.
  destruct (N.eqb_spec m 0); [done|].
  rewrite Hd, (is_null_false _ Hh), Hb. cbn. by rewrite andb_false_r.
Qed.

Lemma async_active_use_gpu cfg w : async_active cfg w = true → use_gpu cfg = true.
Proof. unfold async_active. by intros [? ?]%andb_prop. Qed.

Lemma streamSynchronize_device w : device (streamSynchronize w) = device (drained w).
Proof. by rewrite drained_eq. Qed.

Lemma streamSynchronize_pinned w : pinned (streamSynchronize w) = pinned (drained w).
Proof. by rewrite drained_eq. Qed.

Lemma streamSynchronize_stream w : stream (streamSynchronize w) = [].
Proof. unfold streamSynchronize. cbn. by rewrite run_ops_stream. Qed.

Lemma dtoh_memcpy_result dst d bytes w :
  (dtoh_memcpy dst d bytes w).2 =
    match device (drained w) !! d with
    | Some blk => memcpy_bytes dst blk bytes
    | None => dst
    end.
Proof. unfold dtoh_memcpy. cbn. by rewrite drained_eq. Qed.

Lemma dtoh_memcpy_world dst d bytes w :
  (dtoh_memcpy dst d bytes w).1 = streamSynchronize w.
Proof. done. Qed.

(** A pending host-to-device copy has filled its device block by the
    time the stream has drained, if the units before it free neither
    block and the units after it leave the device block alone. *)
Lemma drained_after_pending_htod d h nb hb s s2 w :
  stream w = s ++ OpHtoD d h nb :: s2 →
  pinned w !! h = Some hb →
  live The_Arena d w →
  Forall (λ op, ¬ op_frees The_Pinned_Arena h op) s →
  Forall (λ op, ¬ op_frees The_Arena d op) s →
  Forall (λ op, ¬ op_writes d op) s2 →
  Forall (λ op, ¬ op_frees The_Arena d op) s2 →
  ∃ blk, device (drained w) !! d = Some (memcpy_bytes blk hb nb).
Proof.
  intros Hs Hh Hd Fh Fd Ws2 Fs2. rewrite drained_eq, Hs, run_ops_app.
  change (run_ops (OpHtoD d h nb :: s2) ?x)
    with (run_ops s2 (exec_op (OpHtoD d h nb) x)).
  rewrite run_ops_device_lookup by done.
  set (w2 := run_ops s (set_stream [] w)).
  assert (Hh2 : pinned w2 !! h = Some hb).
  { unfold w2. by rewrite run_ops_pinned_lookup. }
  assert (Hd2 : live The_Arena d w2).
  { unfold w2. by apply run_ops_live. }
  destruct Hd2 as [blk Hblk]. cbn in Hblk.
  exists blk. cbn. rewrite Hh2. cbn. by rewrite lookup_alter_eq, Hblk.
Qed.

Lemma memcpy_source_image h_p nb :
  (N.to_nat nb ≤ length h_p)%nat →
  memcpy_bytes (fresh_block nb) h_p nb = take (N.to_nat nb) h_p.
Proof.
  intros H. unfold memcpy_bytes.
  rewrite drop_ge by (by rewrite length_fresh_block). apply app_nil_r.
Qed.

Lemma take_memcpy_bytes blk src nb k :
  (k ≤ N.to_nat nb)%nat → (N.to_nat nb ≤ length src)%nat →
  take k (memcpy_bytes blk src nb) = take k src.
Proof.
  intros Hk Hs. unfold memcpy_bytes.
  rewrite take_app_le by (rewrite length_take; lia).
  rewrite take_take. f_equal. lia.
Qed.

Lemma nbytes_le cfg m n :
  m ≤ n → n * Npos (sizeofT cfg) < 2 ^ 64 →
  nbytes cfg m = m * Npos (sizeofT cfg) ∧ nbytes cfg m ≤ nbytes cfg n.
Proof.
  intros Hm Hfit.
  assert (m * Npos (sizeofT cfg) ≤ n * Npos (sizeofT cfg))
    by (by apply N.mul_le_mono_r).
  rewrite (nbytes_no_wrap cfg n Hfit), (nbytes_no_wrap cfg m) by lia. done.
Qed.

(** X6.  Copying back [m <= n] elements of a buffer built from a host
    source of at least [n] elements overwrites the first [m*sizeof(T)]
    bytes of the destination with the first [m*sizeof(T)] bytes of the
    source and leaves the rest of the destination as it was, on the
    device path and on the host path alike; [m = 0] leaves it whole. *)
Theorem copyToHost_copies_prefix cfg h_p dst n m w :
  0 < n → m ≤ n →
  n * Npos (sizeofT cfg) < 2 ^ 64 →
  n * Npos (sizeofT cfg) ≤ N.of_nat (length h_p) →
  m * Npos (sizeofT cfg) ≤ N.of_nat (length dst) →
  pending_frees_live w →
  let built := AsyncArray_from_host cfg h_p n w in
  let mb := N.to_nat (m * Npos (sizeofT cfg)) in
  (copyToHost cfg built.2 dst m built.1).2 = take mb h_p ++ drop mb dst ∧
  length (copyToHost cfg built.2 dst m built.1).2 = length dst.
Proof.
  intros Hn Hm Hfit Hsrc Hdst Hw.
  destruct (nbytes_le cfg m n Hm Hfit) as [Hmb Hle].
  pose proof (nbytes_no_wrap cfg n Hfit) as Hnb.
  cbv zeta. rewrite <- Hmb.
  assert (Hres : (copyToHost cfg (AsyncArray_from_host cfg h_p n w).2 dst m
                    (AsyncArray_from_host cfg h_p n w).1).2
                 = memcpy_bytes dst h_p (nbytes cfg m)).
  { destruct (N.eqb_spec m 0) as [->|Hm0].
    { unfold copyToHost, memcpy_bytes, nbytes, size_mul. cbn. by rewrite drop_0. }
    rewrite from_host_world by lia. cbv zeta.
    destruct (async_active cfg w) eqn:Ha; cbn [fst snd];
      match goal with |- context [copyToHost _ _ _ _ ?W] => set (w1 := W) end.
    - rewrite copyToHost_device;
        [|by apply (async_active_use_gpu cfg w)|cbn; auto with arena|done].
      cbn [d_data]. rewrite dtoh_memcpy_result.
      edestruct (drained_after_pending_htod (arena_pick (device w))
                   (arena_pick (pinned w)) (nbytes cfg n)
                   (memcpy_bytes (fresh_block (nbytes cfg n)) h_p (nbytes cfg n))
                   (stream w) [] w1)
        as [blk Hblk];
        [reflexivity| apply lookup_insert_eq | | | | constructor | constructor |].
      + unfold live. cbn. by rewrite lookup_insert_eq.
      + apply (fresh_not_pending The_Pinned_Arena w Hw).
      + apply (fresh_not_pending The_Arena w Hw).
      + rewrite Hblk. unfold memcpy_bytes at 1. unfold memcpy_bytes at 3.
        f_equal. rewrite memcpy_source_image by lia.
        rewrite take_memcpy_bytes by (rewrite ?length_take; lia).
        rewrite take_take. f_equal. lia.
    - erewrite copyToHost_host;
        [|done|cbn; auto with arena|done|apply lookup_insert_eq].
      cbn [snd]. unfold memcpy_bytes at 1. unfold memcpy_bytes at 2.
      f_equal. rewrite memcpy_source_image by lia.
      rewrite take_take. f_equal. lia. }
  rewrite Hres. split; [done|].
  apply length_memcpy_bytes; lia.
Qed.

Lemma copyToHost_copies_prefix_witness :
  (copyToHost cfg_cuda_int built_busy.2 (replicate 16 Byte.xff) 2 built_busy.1).2
  = take 8 src_1234 ++ replicate 8 Byte.xff.
Proof.
  pose proof (copyToHost_copies_prefix cfg_cuda_int src_1234 (replicate 16 Byte.xff)
                4 2 busy_world ltac:(reflexivity) ltac:(vm_compute; discriminate)
                ltac:(reflexivity) ltac:(vm_compute; discriminate)
                ltac:(vm_compute; discriminate) busy_world_frees_live) as [H _].
  exact H.
Defined.

(** * The device block and the stream *)

(** Once the stream left by the from-host constructor has drained, the
    device block holds the source. *)
Lemma from_host_drained_block cfg h_p n w :
  0 < n →
  async_active cfg w = true →
  (N.to_nat (nbytes cfg n) ≤ length h_p)%nat →
  pending_frees_live w →
  let built := AsyncArray_from_host cfg h_p n w in
  let nb := N.to_nat (nbytes cfg n) in
  ∃ blk, device (drained built.1) !! d_data built.2 = Some blk ∧
         take nb blk = take nb h_p.
Proof.
  intros Hn Ha Hsrc Hw. cbv zeta.
  rewrite from_host_world by lia. cbv zeta. rewrite Ha.
  name_built_world w1. cbn [fst snd d_data].
  edestruct (drained_after_pending_htod (arena_pick (device w))
               (arena_pick (pinned w)) (nbytes cfg n)
               (memcpy_bytes (fresh_block (nbytes cfg n)) h_p (nbytes cfg n))
               (stream w) [] w1)
    as [blk Hblk];
    [reflexivity| apply lookup_insert_eq | | | | constructor | constructor |].
  - unfold live. cbn. by rewrite lookup_insert_eq.
  - apply (fresh_not_pending The_Pinned_Arena w Hw).
  - apply (fresh_not_pending The_Arena w Hw).
  - eexists. split; [exact Hblk|].
    rewrite memcpy_source_image by done.
    rewrite take_memcpy_bytes by (rewrite ?length_take; lia).
    by rewrite take_take, Nat.min_id.
Qed.

Lemma from_host_data_async cfg h_p n w :
  0 < n → async_active cfg w = true →
  data (AsyncArray_from_host cfg h_p n w).2 = d_data (AsyncArray_from_host cfg h_p n w).2 ∧
  d_data (AsyncArray_from_host cfg h_p n w).2 ≠ nullptr.
Proof.
  intros Hn Ha. rewrite from_host_world by lia. cbv zeta. rewrite Ha.
  cbn [snd d_data]. rewrite data_device_ptr by auto with arena.
  auto with arena.
Qed.

(** X7.  In asynchronous mode the constructor from a host source does
    not wait for its host-to-device copy, but stream order makes up for
    it: whatever units the caller enqueues afterwards, at the moment
    the first of them is due to run (the units present at the
    constructor's return have all run) the block [data()] points to
    already holds the source's [n*sizeof(T)] bytes. *)
Theorem device_block_filled_before_later_work cfg h_p n w later :
  0 < n →
  async_active cfg w = true →
  (N.to_nat (nbytes cfg n) ≤ length h_p)%nat →
  pending_frees_live w →
  let built := AsyncArray_from_host cfg h_p n w in
  let nb := N.to_nat (nbytes cfg n) in
  let w2 := set_stream (stream built.1 ++ later) built.1 in
  let wk := run_stream (length (stream built.1)) w2 in
  stream wk = later ∧
  ∃ blk, device wk !! data built.2 = Some blk ∧ take nb blk = take nb h_p.
Proof.
  intros Hn Ha Hsrc Hw. cbv zeta.
  rewrite run_stream_take. cbn [set_stream stream].
  rewrite take_app_length, drop_app_length.
  split; [done|].
  rewrite run_ops_set_stream. cbn [set_stream device].
  destruct (from_host_data_async cfg h_p n w Hn Ha) as [-> _].
  pose proof (from_host_drained_block cfg h_p n w Hn Ha Hsrc Hw) as H.
  cbv zeta in H. by rewrite drained_eq, run_ops_set_stream in H.
Qed.

Lemma device_block_filled_before_later_work_witness :
  let later := [OpKernel 2 [Byte.x09]] in
  let w2 := set_stream (stream built_busy.1 ++ later) built_busy.1 in
  let wk := run_stream 3 w2 in
  stream wk = later ∧
  ∃ blk, device wk !! 2 = Some blk ∧ take 16 blk = src_1234.
Proof.
  exact (device_block_filled_before_later_work cfg_cuda_int src_1234 4
           busy_world [OpKernel 2 [Byte.x09]] ltac:(reflexivity)
           ltac:(reflexivity) ltac:(vm_compute; lia) busy_world_frees_live).
Defined.

Lemma drained_after_pending_kernel d vals s w :
  stream w = s ++ [OpKernel d vals] →
  live The_Arena d w →
  Forall (λ op, ¬ op_frees The_Arena d op) s →
  ∃ blk, device (drained w) !! d
         = Some (memcpy_bytes blk vals (N.of_nat (length vals))).
Proof.
  intros Hs Hd Fd. rewrite drained_eq, Hs, run_ops_app.
  set (w2 := run_ops s (set_stream [] w)).
  assert (Hd2 : live The_Arena d w2).
  { unfold w2. by apply run_ops_live. }
  destruct Hd2 as [blk Hblk]. cbn in Hblk.
  exists blk. cbn. by rewrite lookup_alter_eq, Hblk.
Qed.

(** X8.  The uninitialised constructor's intended use: in asynchronous
    mode, a buffer of [n] elements that the caller fills by device work
    on [data()] and then copies back with [copyToHost] returns exactly
    the bytes that work wrote, although the buffer never had a host
    block. *)
Theorem uninit_filled_by_device_work_copies_back cfg vals dst n w :
  0 < n →
  async_active cfg w = true →
  n * Npos (sizeofT cfg) < 2 ^ 64 →
  N.of_nat (length vals) = n * Npos (sizeofT cfg) →
  length dst = length vals →
  pending_frees_live w →
  let built := AsyncArray_uninit cfg n w in
  let w2 := act (Launch (data built.2) vals) built.1 in
  h_data built.2 = nullptr ∧
  (copyToHost cfg built.2 dst n w2).2 = vals.
Proof.
  intros Hn Ha Hfit Hvals Hdst Hw.
  pose proof (nbytes_no_wrap cfg n Hfit) as Hnb.
  cbv zeta. rewrite uninit_world by lia. cbv zeta. rewrite Ha.
  name_built_world w1. cbn [fst snd].
  rewrite data_device_ptr by auto with arena.
  split; [done|].
  rewrite copyToHost_device;
    [|by apply (async_active_use_gpu cfg w)|cbn; auto with arena|lia].
  cbn [d_data]. rewrite dtoh_memcpy_result.
  edestruct (drained_after_pending_kernel (arena_pick (device w)) vals
               (stream w) (act (Launch (arena_pick (device w)) vals) w1))
    as [blk Hblk]; [reflexivity| | |].
  - unfold live. cbn. by rewrite lookup_insert_eq.
  - apply (fresh_not_pending The_Arena w Hw).
  - rewrite Hblk. replace (N.of_nat (length vals)) with (nbytes cfg n) by lia.
    apply memcpy_bytes_roundtrip; lia.
Qed.

Lemma uninit_filled_by_device_work_copies_back_witness :
  let built := AsyncArray_uninit cfg_cuda_int 4 busy_world in
  let w2 := act (Launch (data built.2) src_1234) built.1 in
  pinned w2 = pinned busy_world ∧
  (copyToHost cfg_cuda_int built.2 (replicate 16 Byte.xff) 4 w2).2 = src_1234.
Proof.
  pose proof (uninit_filled_by_device_work_copies_back cfg_cuda_int src_1234
                (replicate 16 Byte.xff) 4 busy_world ltac:(reflexivity)
                ltac:(reflexivity) ltac:(reflexivity) ltac:(reflexivity)
                ltac:(reflexivity) busy_world_frees_live) as [_ H].
  cbv zeta. split; [reflexivity | exact H].
Defined.

(** X9.  The hazard behind a mode change: a buffer built from a host
    source in asynchronous mode and cleared after the launch region was
    left has its pinned staging block freed at once, while the
    host-to-device copy that reads that block is still on the stream
    and the device block it fills stays live. *)
Theorem sync_clear_strands_pending_copy cfg h_p n w :
  0 < n →
  async_active cfg w = true →
  let built := AsyncArray_from_host cfg h_p n w in
  let w2 := act (SetLaunchRegion false) built.1 in
  let w3 := (clear cfg built.2 w2).1 in
  OpHtoD (d_data built.2) (h_data built.2) (nbytes cfg n) ∈ stream w3 ∧
  ¬ live The_Pinned_Arena (h_data built.2) w3 ∧
  live The_Arena (d_data built.2) w3.
Proof.
  intros Hn Ha. cbv zeta.
  rewrite from_host_world by lia. cbv zeta. rewrite Ha.
  name_built_world w1. cbn [fst snd].
  rewrite clear_sync by (unfold async_active; cbn; apply andb_false_r).
  cbn [h_data d_data]. split_and!.
  - cbn. apply elem_of_app. right. by apply list_elem_of_singleton.
  - apply not_live_after_free.
  - unfold live. cbn. by rewrite lookup_insert_eq.
Qed.

Lemma sync_clear_strands_pending_copy_witness :
  let w2 := act (SetLaunchRegion false) built_busy.1 in
  let w3 := (clear cfg_cuda_int built_busy.2 w2).1 in
  OpHtoD 2 2 16 ∈ stream w3 ∧ pinned w3 !! 2 = None.
Proof.
  pose proof (sync_clear_strands_pending_copy cfg_cuda_int src_1234 4 busy_world
                ltac:(reflexivity) ltac:(reflexivity)) as (H & _ & _).
  cbv zeta. split; [exact H | reflexivity].
Defined.

(** * Several operations on the same stream *)

Lemma arena_pick_insert_ne (m : gmap N (list byte)) k v :
  arena_pick (<[k := v]> m) ≠ k.
Proof.
  intros E. pose proof (arena_pick_fresh (<[k := v]> m)) as H.
  rewrite E in H. by rewrite lookup_insert_eq in H.
Qed.

Lemma pending_frees_live_from_host cfg h_p n w :
  pending_frees_live w → pending_frees_live (AsyncArray_from_host cfg h_p n w).1.
Proof.
  intros Hw. destruct (N.eqb_spec n 0) as [->|Hn]; [done|].
  rewrite from_host_world by done. cbv zeta.
  intros ar p Hp Hl.
  assert (Hl0 : ¬ live ar p w).
  { intros [blk Hblk]. apply Hl. unfold live.
    destruct (async_active cfg w), ar; cbn in *;
      try (destruct (decide (arena_pick (pinned w) = p)) as [<-|];
           [by rewrite arena_pick_fresh in Hblk|by rewrite lookup_insert_ne]);
      try (destruct (decide (arena_pick (device w) = p)) as [<-|];
           [by rewrite arena_pick_fresh in Hblk|by rewrite lookup_insert_ne]);
      by eexists. }
  pose proof (Hw ar p Hp Hl0) as Hf. unfold not_pending_free in *.
  destruct (async_active cfg w); cbn; [|done].
  apply Forall_app. split; [done|].
  constructor; [destruct ar; cbn; tauto|constructor].
Qed.

(** X10.  Two buffers built one after the other from two host sources
    do not share memory: their [data()] pointers differ, and copying
    each back, in the world where both exist, returns its own source. *)
Theorem two_buffers_do_not_interfere cfg s1 s2 dst1 dst2 n1 n2 w :
  0 < n1 → 0 < n2 →
  N.of_nat (length s1) = n1 * Npos (sizeofT cfg) →
  N.of_nat (length s2) = n2 * Npos (sizeofT cfg) →
  N.of_nat (length s1) < 2 ^ 64 → N.of_nat (length s2) < 2 ^ 64 →
  length dst1 = length s1 → length dst2 = length s2 →
  pending_frees_live w →
  let b1 := AsyncArray_from_host cfg s1 n1 w in
  let b2 := AsyncArray_from_host cfg s2 n2 b1.1 in
  let r1 := copyToHost cfg b1.2 dst1 n1 b2.1 in
  data b1.2 ≠ data b2.2 ∧
  r1.2 = s1 ∧
  (copyToHost cfg b2.2 dst2 n2 r1.1).2 = s2.
Proof.
  intros Hn1 Hn2 Hs1 Hs2 Hf1 Hf2 Hd1 Hd2 Hw.
  pose proof (nbytes_no_wrap cfg n1 ltac:(lia)) as Hb1.
  pose proof (nbytes_no_wrap cfg n2 ltac:(lia)) as Hb2.
  pose proof (pending_frees_live_from_host cfg s1 n1 w Hw) as Hw1.
  pose proof (fresh_not_pending The_Pinned_Arena w Hw) as Fh1.
  pose proof (fresh_not_pending The_Arena w Hw) as Fd1.
  pose proof (fresh_not_pending The_Pinned_Arena _ Hw1) as Fh2.
  pose proof (fresh_not_pending The_Arena _ Hw1) as Fd2.
  revert Fh2 Fd2. clear Hw1. cbv zeta.
  rewrite (from_host_world cfg s1 n1 w) by lia. cbv zeta.
  destruct (async_active cfg w) eqn:Ha; name_built_world w1; cbn [fst snd];
    intros Fh2 Fd2;
    (assert (Ha1 : async_active cfg w1 = async_active cfg w) by reflexivity);
    rewrite (from_host_world cfg s2 n2 w1) by lia; cbv zeta; rewrite Ha1, Ha;
    name_built_world w2; cbn [fst snd];
    set (hb1 := memcpy_bytes (fresh_block (nbytes cfg n1)) s1 (nbytes cfg n1)) in *;
    set (hb2 := memcpy_bytes (fresh_block (nbytes cfg n2)) s2 (nbytes cfg n2)) in *;
    (assert (Hhb1 : hb1 = s1)
       by (apply memcpy_bytes_exact; rewrite ?length_fresh_block; lia));
    (assert (Hhb2 : hb2 = s2)
       by (apply memcpy_bytes_exact; rewrite ?length_fresh_block; lia)).
  - (* device path *)
    pose proof (async_active_use_gpu cfg w Ha) as Hg.
    assert (Hne : arena_pick (device w1) ≠ arena_pick (device w))
      by apply arena_pick_insert_ne.
    assert (Hneh : arena_pick (pinned w1) ≠ arena_pick (pinned w))
      by apply arena_pick_insert_ne.
    rewrite !data_device_ptr by auto with arena.
    split; [done|].
    rewrite copyToHost_device; [|done|cbn; auto with arena|lia].
    cbn [d_data]. rewrite dtoh_memcpy_result, dtoh_memcpy_world.
    rewrite copyToHost_device; [|done|cbn; auto with arena|lia].
    cbn [d_data]. rewrite dtoh_memcpy_result.
    rewrite (drained_idle (streamSynchronize w2))
      by apply streamSynchronize_stream.
    rewrite streamSynchronize_device.
    edestruct (drained_after_pending_htod (arena_pick (device w))
                 (arena_pick (pinned w)) (nbytes cfg n1) hb1 (stream w)
                 [OpHtoD (arena_pick (device w1)) (arena_pick (pinned w1))
                    (nbytes cfg n2)] w2) as [blk1 Hblk1].
    { cbn. by rewrite <- app_assoc. }
    { cbn. rewrite lookup_insert_ne by done. apply lookup_insert_eq. }
    { unfold live. cbn. rewrite lookup_insert_ne by done.
      by rewrite lookup_insert_eq. }
    { done. } { done. }
    { constructor; [exact Hne|constructor]. }
    { constructor; [cbn; tauto|constructor]. }
    edestruct (drained_after_pending_htod (arena_pick (device w1))
                 (arena_pick (pinned w1)) (nbytes cfg n2) hb2 (stream w1)
                 [] w2) as [blk2 Hblk2].
    { done. }
    { cbn. apply lookup_insert_eq. }
    { unfold live. cbn. by rewrite lookup_insert_eq. }
    { done. } { done. } { constructor. } { constructor. }
    rewrite Hblk1, Hblk2, Hhb1, Hhb2.
    split; apply memcpy_bytes_roundtrip; lia.
  - (* host path *)
    assert (Hneh : arena_pick (pinned w1) ≠ arena_pick (pinned w))
      by apply arena_pick_insert_ne.
    rewrite !data_host_ptr. split; [done|].
    rewrite (copyToHost_host cfg _ dst1 n1 w2 hb1);
      [|done|cbn; auto with arena|lia|].
    2: { cbn. rewrite lookup_insert_ne by done. apply lookup_insert_eq. }
    cbn [fst snd].
    rewrite (copyToHost_host cfg _ dst2 n2 w2 hb2);
      [|done|cbn; auto with arena|lia|cbn; apply lookup_insert_eq].
    cbn [snd]. rewrite Hhb1, Hhb2.
    split; apply memcpy_bytes_exact; lia.
Qed.


Lemma two_buffers_do_not_interfere_witness :
  let b1 := AsyncArray_from_host cfg_cuda_int src_1234 4 busy_world in
  let b2 := AsyncArray_from_host cfg_cuda_int src_5678 2 b1.1 in
  let r1 := copyToHost cfg_cuda_int b1.2 (replicate 16 Byte.xff) 4 b2.1 in
  data b1.2 ≠ data b2.2 ∧
  r1.2 = src_1234 ∧
  (copyToHost cfg_cuda_int b2.2 (replicate 8 Byte.xff) 2 r1.1).2 = src_5678.
Proof.
  exact (two_buffers_do_not_interfere cfg_cuda_int src_1234 src_5678
           (replicate 16 Byte.xff) (replicate 8 Byte.xff) 4 2 busy_world
           ltac:(reflexivity) ltac:(reflexivity) ltac:(reflexivity)
           ltac:(reflexivity) ltac:(reflexivity) ltac:(reflexivity)
           ltac:(reflexivity) ltac:(reflexivity) busy_world_frees_live).
Defined.

Lemma from_host_sync_facts cfg h_p n w :
  0 < n → async_active cfg w = false →
  let built := AsyncArray_from_host cfg h_p n w in
  d_data built.2 = nullptr ∧ h_data built.2 ≠ nullptr ∧
  pinned built.1 !! h_data built.2
    = Some (memcpy_bytes (fresh_block (nbytes cfg n)) h_p (nbytes cfg n)).
Proof.
  intros Hn Ha. cbv zeta. rewrite from_host_world by lia. cbv zeta. rewrite Ha.
  cbn -[nbytes]. split_and!; [done|auto with arena|apply lookup_insert_eq].
Qed.

(** X11.  [copyToHost] does not use the buffer up: after one copy back,
    a second one, into any destination of [n] elements, returns the
    source again. *)
Theorem copyToHost_repeatable cfg h_p dst dst' n w :
  0 < n →
  N.of_nat (length h_p) = n * Npos (sizeofT cfg) →
  N.of_nat (length h_p) < 2 ^ 64 →
  length dst' = length h_p →
  pending_frees_live w →
  let built := AsyncArray_from_host cfg h_p n w in
  let r1 := copyToHost cfg built.2 dst n built.1 in
  (copyToHost cfg built.2 dst' n r1.1).2 = h_p.
Proof.
  intros Hn Hsrc Hfit Hdst Hw.
  pose proof (nbytes_no_wrap cfg n ltac:(lia)) as Hnb.
  cbv zeta. destruct (async_active cfg w) eqn:Ha.
  - destruct (from_host_data_async cfg h_p n w Hn Ha) as [_ Hd].
    pose proof (async_active_use_gpu cfg w Ha) as Hg.
    destruct (from_host_drained_block cfg h_p n w Hn Ha ltac:(lia) Hw)
      as (blk & Hblk & Htake).
    rewrite (copyToHost_device cfg _ dst) by (done || lia).
    rewrite dtoh_memcpy_world.
    rewrite copyToHost_device by (done || lia).
    rewrite dtoh_memcpy_result.
    rewrite (drained_idle (streamSynchronize _)) by apply streamSynchronize_stream.
    rewrite streamSynchronize_device, Hblk.
    unfold memcpy_bytes. rewrite Htake.
    rewrite take_ge by lia. rewrite drop_ge by lia. apply app_nil_r.
  - destruct (from_host_sync_facts cfg h_p n w Hn Ha) as (Hd & Hh & Hp).
    erewrite (copyToHost_host cfg _ dst) by (done || lia || exact Hp).
    cbn [fst]. erewrite copyToHost_host by (done || lia || exact Hp).
    cbn [snd].
    rewrite (memcpy_bytes_exact _ h_p) by (rewrite ?length_fresh_block; lia).
    apply memcpy_bytes_exact; lia.
Qed.

Lemma copyToHost_repeatable_witness :
  let r1 := copyToHost cfg_cuda_int built_busy.2 [] 4 built_busy.1 in
  stream r1.1 = [] ∧
  (copyToHost cfg_cuda_int built_busy.2 (replicate 16 Byte.xff) 4 r1.1).2 = src_1234.
Proof.
  split; [reflexivity|].
  exact (copyToHost_repeatable cfg_cuda_int src_1234 [] (replicate 16 Byte.xff) 4
           busy_world ltac:(reflexivity) ltac:(reflexivity) ltac:(reflexivity)
           ltac:(reflexivity) busy_world_frees_live).
Defined.

(** X12.  A temporary buffer may be destroyed as soon as it is built.
    With a stream callback or host task (CUDA, HIP, SYCL host tasks),
    in asynchronous mode, the destructor leaves the constructor's
    pending copy intact: through every runtime step up to and including
    the copy, the pinned staging block and the device block are both
    live, and when the copy has run the device block holds the source;
    only the unit after that releases them. *)
Theorem deferred_release_lets_copy_finish cfg h_p n w :
  0 < n →
  async_active cfg w = true →
  backend cfg ≠ Sycl →
  (N.to_nat (nbytes cfg n) ≤ length h_p)%nat →
  pending_frees_live w →
  let built := AsyncArray_from_host cfg h_p n w in
  let w3 := destructor cfg built.2 built.1 in
  let k := S (length (stream w)) in
  let nb := N.to_nat (nbytes cfg n) in
  length (stream w3) = S k ∧
  (∀ j, (j ≤ k)%nat →
        live The_Pinned_Arena (h_data built.2) (run_stream j w3) ∧
        live The_Arena (d_data built.2) (run_stream j w3)) ∧
  ∃ blk, device (run_stream k w3) !! d_data built.2 = Some blk ∧
         take nb blk = take nb h_p.
Proof.
  intros Hn Ha Hbk Hsrc Hw.
  pose proof (from_host_drained_block cfg h_p n w Hn Ha Hsrc Hw) as Hblk.
  pose proof (fresh_not_pending The_Pinned_Arena w Hw) as Fh.
  pose proof (fresh_not_pending The_Arena w Hw) as Fd.
  revert Hblk. cbv zeta. rewrite from_host_world by lia. cbv zeta. rewrite Ha.
  name_built_world w1. cbn [fst snd d_data h_data]. intros Hblk.
  set (d := arena_pick (device w)) in *. set (h := arena_pick (pinned w)) in *.
  assert (Hrel : ∃ op, destructor cfg {| d_data := d; h_data := h |} w1
                       = enqueue op w1).
  { unfold destructor, clear.
    change (use_gpu cfg && inLaunchRegion w1) with (async_active cfg w).
    rewrite Ha. cbn [d_data h_data].
    rewrite (is_null_false d) by (unfold d; auto with arena). cbn [negb fst].
    pose proof (async_active_use_gpu cfg w Ha) as Hg. unfold use_gpu in Hg.
    destruct (backend cfg); try done; by eexists. }
  destruct Hrel as [op ->].
  assert (Hlen : length (stream w1) = S (length (stream w))).
  { cbn. rewrite length_app. cbn. lia. }
  assert (Fh1 : Forall (λ op, ¬ op_frees The_Pinned_Arena h op) (stream w1)).
  { cbn. apply Forall_app. split; [done|]. constructor; [cbn; tauto|constructor]. }
  assert (Fd1 : Forall (λ op, ¬ op_frees The_Arena d op) (stream w1)).
  { cbn. apply Forall_app. split; [done|]. constructor; [cbn; tauto|constructor]. }
  split_and!.
  - cbn [enqueue set_stream stream]. rewrite length_app, Hlen. cbn. lia.
  - intros j Hj. rewrite run_stream_take, !live_set_stream.
    cbn [enqueue set_stream stream].
    rewrite take_app_le by lia.
    split; (apply run_ops_live; [by apply Forall_take|]);
      unfold live; cbn; by rewrite lookup_insert_eq.
  - rewrite run_stream_take. cbn [enqueue set_stream stream device].
    rewrite <- Hlen, take_app_length.
    unfold enqueue. rewrite run_ops_set_stream. cbn [set_stream device].
    by rewrite drained_eq, run_ops_set_stream in Hblk.
Qed.

Lemma deferred_release_lets_copy_finish_witness :
  let w3 := destructor cfg_cuda_int built_busy.2 built_busy.1 in
  length (stream w3) = 4%nat ∧
  live The_Pinned_Arena 2 (run_stream 3 w3) ∧
  ∃ blk, device (run_stream 3 w3) !! 2 = Some blk ∧ take 16 blk = src_1234.
Proof.
  pose proof (deferred_release_lets_copy_finish cfg_cuda_int src_1234 4 busy_world
                ltac:(reflexivity) ltac:(reflexivity) ltac:(discriminate)
                ltac:(vm_compute; lia) busy_world_frees_live) as (Hlen & Hlive & Hblk).
  cbv zeta. split_and!; [exact Hlen | exact (proj1 (Hlive 3%nat ltac:(vm_compute; lia))) | exact Hblk].
Defined.

(** * Worked examples *)

(** The spec's scenario without a GPU: [[1,2,3,4]] goes to one pinned
    block and comes back; the device arena is never called. *)
Example host_build_roundtrip :
  let built := AsyncArray_from_host cfg_host_int src_1234 4 (idle_world true) in
  let back := copyToHost cfg_host_int built.2 (replicate 16 Byte.xff) 4 built.1 in
  back.2 = src_1234 ∧
  log back.1 = [EvAlloc The_Pinned_Arena 16 1] ∧
  data built.2 = 1.
Proof. by vm_compute. Qed.

(** With CUDA the copy back waits for the stream: the kernel and the
    earlier release run first, then the buffer's own copy. *)
Example cuda_copy_back_drains_stream :
  let back := copyToHost cfg_cuda_int built_busy.2 (replicate 16 Byte.xff) 4 built_busy.1 in
  stream built_busy.1 =
    [OpKernel 1 [Byte.xff]; OpCallback {| rec_d := 1; rec_h := 1 |}; OpHtoD 2 2 16] ∧
  stream back.1 = [] ∧
  log back.1 = [EvAlloc The_Pinned_Arena 16 2; EvAlloc The_Arena 16 2;
                EvFree The_Arena 1; EvFree The_Pinned_Arena 1; EvStreamSync] ∧
  back.2 = src_1234.
Proof. by vm_compute. Qed.

(** With SYCL and no host tasks [clear] runs the stream itself and then
    frees both blocks. *)
Example sycl_clear_blocks :
  let cfg := {| backend := Sycl; sizeofT := 4 |} in
  let built := AsyncArray_from_host cfg src_1234 4 busy_world in
  let w' := (clear cfg built.2 built.1).1 in
  stream w' = [] ∧
  log w' = [EvAlloc The_Pinned_Arena 16 2; EvAlloc The_Arena 16 2;
            EvFree The_Arena 1; EvFree The_Pinned_Arena 1; EvStreamSync;
            EvFree The_Arena 2; EvFree The_Pinned_Arena 2] ∧
  pinned w' = ∅ ∧ device w' = ∅.
Proof. by vm_compute. Qed.
